(** * Happy Solar reporting dashboards: aggregation logic

    A shallow embedding of the three Python programs of the repository
    ([kixie_dashboard.py], [sales_dashboard.py], [api/index.py]) together
    with the pandas operations they call, and the properties of the
    aggregations stated in the specification. *)

From Stdlib Require Import ZArith Lia DecimalString.
From Stdlib.Floats Require Import SpecFloat.
From stdpp Require Import base option list strings gmap sorting.

Local Open Scope string_scope.
Local Open Scope Z_scope.

(** ** Exceptions

    A Python computation either returns a value or raises.  Only the kind
    of the exception is recorded. *)

Inductive exn :=
  | KeyError (column : string)
  | TypeError
  | ValueError
  | NameError
  | ZeroDivisionError.

Inductive result (A : Type) :=
  | Ok (a : A)
  | Raise (e : exn).
Arguments Ok {A} a.
Arguments Raise {A} e.

Definition rbind {A B} (r : result A) (k : A -> result B) : result B :=
  match r with
  | Ok a => k a
  | Raise e => Raise e
  end.

Notation "x <-r c ; k" := (rbind c (fun x => k))
  (at level 100, c at next level, right associativity).

(** ** Decimal rendering of integers: Python's [str(n)] and [f"{n}"] *)

Definition dec (z : Z) : string := NilZero.string_of_int (Z.to_int z).

(** ** Binary64 floating point

    Python's [float] and numpy's [float64] are IEEE 754 binary64 numbers;
    [spec_float] with [prec = 53] and [emax = 1024] is that format. *)

Module Float64.

Definition prec : Z := 53.
Definition emax : Z := 1024.

(** [float(n)] for an integer [n]. *)
Definition of_Z (n : Z) : spec_float := binary_normalize prec emax n 0 false.

Definition div (x y : spec_float) : spec_float := SFdiv prec emax x y.
Definition mul (x y : spec_float) : spec_float := SFmul prec emax x y.

(** [round(v * 10)] for [v = m * 2^e], to nearest, ties to even: the
    number of tenths that the conversion [.1f] prints.  The conversion
    is correctly rounded on the exact binary value. *)
Definition tenths (m : positive) (e : Z) : Z :=
  let n := 10 * Z.pos m in
  match e with
  | Zneg k =>
      let d := 2 ^ Z.pos k in
      let q := n / d in
      let r := n mod d in
      match 2 * r ?= d with
      | Lt => q
      | Gt => q + 1
      | Eq => if Z.even q then q else q + 1
      end
  | _ => n * 2 ^ e
  end.

(** [f"{x:.1f}"] *)
Definition fmt_1f (x : spec_float) : string :=
  match x with
  | S754_nan => "nan"
  | S754_infinity s => if s then "-inf" else "inf"
  | S754_zero s => if s then "-0.0" else "0.0"
  | S754_finite s m e =>
      let t := tenths m e in
      (if s then "-" else "") ++ dec (t / 10) ++ "." ++ dec (t mod 10)
  end.

End Float64.

(** [n / d] on two integers: true division, a float.  Dividing by zero
    raises.  (For operands below [2^53] the quotient of the converted
    operands is the correctly rounded quotient that Python returns.) *)
Definition true_div (n d : Z) : result spec_float :=
  if d =? 0 then Raise ZeroDivisionError
  else Ok (Float64.div (Float64.of_Z n) (Float64.of_Z d)).

(** [f"{(n/d*100):.1f}%"] *)
Definition percent_1f (n d : Z) : result string :=
  q <-r true_div n d;
  Ok (Float64.fmt_1f (Float64.mul q (Float64.of_Z 100)) ++ "%").

(** ** Records and tables

    A Firestore document is a dictionary from field names to values;
    fields are sparse.  [Null] stands for pandas' missing value
    ([None], [NaN], [NaT]). *)

Inductive value :=
  | Null
  | Str (s : string)
  | Num (n : Z)
  | Timestamp (t : Z)   (* a point in time, in seconds since the epoch *)
  | Date (d : Z).       (* a calendar day, in days since the epoch *)

#[global] Instance value_eq_dec : EqDecision value.
Proof. solve_decision. Defined.

(** A [pd.DataFrame]: the column index and the rows in fetch order.  A
    row holds the fields its record has; a column the row lacks reads as
    [Null]. *)
Record DataFrame := mkDataFrame {
  columns : list string;
  rows : list (gmap string value)
}.

Definition cell (r : gmap string value) (c : string) : value :=
  default Null (r !! c).

Definition isnull (v : value) : bool :=
  match v with Null => true | _ => false end.

Definition notna (v : value) : bool := negb (isnull v).

(** [pd.DataFrame(records)]: the columns are the union of the fields
    seen across the batch. *)
Definition add_keys (cols : list string) (r : gmap string value) : list string :=
  cols ++ List.filter (fun k => negb (bool_decide (k ∈ cols))) (fst <$> map_to_list r).

Definition DataFrame_of (records : list (gmap string value)) : DataFrame :=
  {| columns := foldl add_keys [] records; rows := records |}.

(** [pd.DataFrame(columns=cols)] *)
Definition DataFrame_columns (cols : list string) : DataFrame :=
  {| columns := cols; rows := [] |}.

(** [len(df)] *)
Definition len (df : DataFrame) : nat := length (rows df).

(** [df.empty]: some axis has length zero. *)
Definition empty (df : DataFrame) : bool :=
  (len df =? 0)%nat || (length (columns df) =? 0)%nat.

(** [c in df.columns] *)
Definition has_column (c : string) (df : DataFrame) : bool :=
  bool_decide (c ∈ columns df).

(** [df[c]]: the Series of a column; [KeyError] when there is none. *)
Definition col (df : DataFrame) (c : string) : result (list value) :=
  if has_column c df then Ok ((fun r => cell r c) <$> rows df)
  else Raise (KeyError c).

(** [df[c] = f(row)], in place: the column is overwritten, or appended
    when new. *)
Definition set_column (c : string) (f : gmap string value -> value)
    (df : DataFrame) : DataFrame :=
  {| columns := if has_column c df then columns df else columns df ++ [c];
     rows := (fun r => <[c := f r]> r) <$> rows df |}.

(** [df[mask]]: the rows at which the boolean Series holds. *)
Fixpoint select_rows {A} (l : list A) (m : list bool) : list A :=
  match l, m with
  | x :: l', b :: m' =>
      if b then x :: select_rows l' m' else select_rows l' m'
  | _, _ => []
  end.

Definition select (df : DataFrame) (m : list bool) : DataFrame :=
  {| columns := columns df; rows := select_rows (rows df) m |}.

(** An elementwise comparison of a Series; it raises as soon as one
    element cannot be compared. *)
Fixpoint mask (p : value -> result bool) (s : list value) : result (list bool) :=
  match s with
  | [] => Ok []
  | v :: s' =>
      b <-r p v;
      m <-r mask p s';
      Ok (b :: m)
  end.

(** [s.isin(labels)]: exact membership, no normalisation; a missing value
    and a value that is not a string match nothing. *)
Definition isin (labels : list string) (v : value) : bool :=
  match v with
  | Str s => bool_decide (s ∈ labels)
  | _ => false
  end.

(** [s.sum()]: missing values are skipped; adding a value that is not a
    number is a [TypeError]. *)
Fixpoint sum_values (s : list value) : result Z :=
  match s with
  | [] => Ok 0
  | Null :: s' => sum_values s'
  | Num n :: s' => t <-r sum_values s'; Ok (n + t)
  | _ :: _ => Raise TypeError
  end.

(** A stable insertion sort; [before x y] says that [x] may stand in
    front of [y]. *)
Section Sort.
Context {A : Type} (before : A -> A -> bool).

Fixpoint insert_sorted (x : A) (l : list A) : list A :=
  match l with
  | [] => [x]
  | y :: l' => if before x y then x :: l else y :: insert_sorted x l'
  end.

Definition isort (l : list A) : list A := foldr insert_sorted [] l.
End Sort.

(** [s.value_counts()]: one entry per distinct value, missing values
    dropped, sorted by count, largest first.  Equal counts keep the order
    in which the values were first seen. *)
Fixpoint count_into (v : value) (acc : list (value * nat)) : list (value * nat) :=
  match acc with
  | [] => [(v, 1%nat)]
  | (k, n) :: acc' =>
      if decide (k = v) then (k, S n) :: acc' else (k, n) :: count_into v acc'
  end.

Definition tally (s : list value) : list (value * nat) :=
  foldl (fun acc v => if isnull v then acc else count_into v acc) [] s.

Definition more_frequent (x y : value * nat) : bool := (snd y <=? snd x)%nat.

Definition value_counts (s : list value) : list (value * nat) :=
  isort more_frequent (tally s).

(** [.head(n)] *)
Definition head {A} (n : nat) (l : list A) : list A := take n l.

(** [df[c].value_counts()], with [.head(n)] when a top-N is asked for. *)
Definition group_counts (df : DataFrame) (c : string) (top_n : option nat)
    : result (list (value * nat)) :=
  s <-r col df c;
  Ok (match top_n with
      | Some n => head n (value_counts s)
      | None => value_counts s
      end).

(** The order in which [groupby] presents its keys.  Labels of one type
    are in their natural order (strings by code point); the order between
    types is a choice of this model. *)
Definition value_rank (v : value) : Z :=
  match v with
  | Null => 0 | Num _ => 1 | Timestamp _ => 2 | Date _ => 3 | Str _ => 4
  end.

Definition value_leb (a b : value) : bool :=
  match a, b with
  | Num x, Num y => (x <=? y)%Z
  | Timestamp x, Timestamp y => (x <=? y)%Z
  | Date x, Date y => (x <=? y)%Z
  | Str x, Str y => String.leb x y
  | _, _ => (value_rank a <=? value_rank b)%Z
  end.

Fixpoint distinct (s : list value) : list value :=
  match s with
  | [] => []
  | v :: s' => v :: List.filter (fun w => negb (bool_decide (w = v))) (distinct s')
  end.

(** [df.groupby(c)]: one group per distinct value of the column that is
    not missing, keys sorted, each with its rows in table order. *)
Definition groupby (df : DataFrame) (c : string)
    : result (list (value * list (gmap string value))) :=
  s <-r col df c;
  Ok ((fun k => (k, List.filter (fun r => bool_decide (cell r c = k)) (rows df)))
        <$> isort value_leb (distinct (List.filter notna s))).

(** [count_matching]: the number of rows whose value in a column is one of
    the labels, as in [df[df[c].isin(labels)].shape[0]]. *)
Definition count_matching (df : DataFrame) (c : string) (labels : list string)
    : result nat :=
  s <-r col df c;
  Ok (len (select df (isin labels <$> s))).

(** ** The program state

    The module-level name [df] is bound to a table object; tables live in
    a heap and are reached through references, so that a copy and the
    table it was copied from are different objects.  An exception leaves
    the state as it was when it was raised. *)

Record store := mkStore {
  heap : list DataFrame;
  df : nat
}.

Definition M (A : Type) : Type := store -> result A * store.

Definition ret {A} (a : A) : M A := fun s => (Ok a, s).

Definition bind {A B} (m : M A) (k : A -> M B) : M B :=
  fun s =>
    match m s with
    | (Ok a, s') => k a s'
    | (Raise e, s') => (Raise e, s')
    end.

Notation "x <-m c ; k" := (bind c (fun x => k))
  (at level 100, c at next level, right associativity).

Definition lift {A} (r : result A) : M A := fun s => (r, s).

(** A new table object. *)
Definition new (d : DataFrame) : M nat :=
  fun s => (Ok (length (heap s)), {| heap := heap s ++ [d]; df := df s |}).

(** Reading the object behind a reference. *)
Definition deref (l : nat) : M DataFrame :=
  fun s =>
    (match heap s !! l with Some d => Ok d | None => Raise NameError end, s).

(** Changing an object in place. *)
Definition update (l : nat) (f : DataFrame -> DataFrame) : M unit :=
  fun s => (Ok tt, {| heap := alter f l (heap s); df := df s |}).

(** [global df] read and assigned. *)
Definition get_df : M nat := fun s => (Ok (df s), s).

Definition set_df (l : nat) : M unit :=
  fun s => (Ok tt, {| heap := heap s; df := l |}).

(** Python's truth value of an optional string: [None] and [""] are false. *)
Definition truthy (o : option string) : bool :=
  match o with
  | Some s => negb (String.eqb s "")
  | None => false
  end.

(** ** [format_duration] as the specification words it

    [minutes = floor(total_seconds/60)]; [minutes ≤ 60] renders as
    ["{minutes}m"], anything longer as ["{minutes//60}h {minutes%60}m"]. *)
Definition format_duration_spec (total_seconds : Z) : string :=
  let minutes := total_seconds / 60 in
  if minutes <=? 60 then dec minutes ++ "m"
  else dec (minutes / 60) ++ "h " ++ dec (minutes mod 60) ++ "m".

(** ** [rate] as the specification words it *)
Definition rate_spec (numerator denominator : Z) : result string :=
  if denominator =? 0 then Ok "0%" else percent_1f numerator denominator.

(** ** kixie_dashboard.py *)

Module Kixie.

(** The seven values the callback hands to the page. *)
Inductive figure :=
  | Figure                                  (* [go.Figure()] *)
  | Pie (data : list (value * nat))         (* [px.pie(data, ...)] *)
  | Bar (data : list (value * nat)).        (* [px.bar(data, ...)] *)

Record agent_row := mkAgentRow {
  Agent : value;
  Total_Calls : nat;
  Connections : nat;
  Total_Duration : Z;
  Connection_pct : string;
  Talk_Time : string
}.

Inductive children :=
  | No_data
  | Table (body : list agent_row).

Record outputs := mkOutputs {
  out_total_calls : string;
  out_total_connections : string;
  out_connection_rate : string;
  out_total_talk_time : string;
  out_outcome_chart : figure;
  out_agent_chart : figure;
  out_agent_table : children
}.

Definition default_columns : list string :=
  ["id"; "agent"; "phoneNumber"; "direction"; "outcome";
   "duration"; "callDate"; "callEndDate"; "receivedAt"].

Definition connected_outcomes : list string :=
  ["connected"; "answered"; "success"].

(** [f"{(connections/total_calls*100):.1f}%" if total_calls > 0 else "0%"] *)
Definition connection_rate (connections total_calls : Z) : result string :=
  if total_calls >? 0 then percent_1f connections total_calls else Ok "0%".

(** Lines 201-205.  [int(total_duration / 60)] truncates the quotient
    (taken exactly here: for a whole number of seconds below [2^53] the
    float quotient has the same integer part); [//] and [%] are floor
    division and its remainder. *)
Definition talk_time (total_duration : Z) : string :=
  let talk_minutes := total_duration ÷ 60 in
  if talk_minutes >? 60
  then dec (talk_minutes / 60) ++ "h " ++ dec (talk_minutes mod 60) ++ "m"
  else dec talk_minutes ++ "m".

(** Line 234, the [Connection %] column:
    [f"{(r['Connections']/r['Total Calls']*100):.1f}%"
     if r['Total Calls'] > 0 else "0%"]. *)
Definition agent_connection_pct (connections total_calls : Z) : result string :=
  if total_calls >? 0 then percent_1f connections total_calls else Ok "0%".

(** Line 238, the [Talk Time] column:
    [f"{int(x/60)}m" if x < 3600 else f"{x//60}h {x%60}m"]. *)
Definition agent_talk_time (x : Z) : string :=
  if x <? 3600 then dec (x ÷ 60) ++ "m"
  else dec (x / 60) ++ "h " ++ dec (x mod 60) ++ "m".

(** The [agg] of one group: ['id': 'count'] counts the ids that are not
    missing, the lambda counts the connected outcomes, ['duration':
    'sum'] adds the durations. *)
Definition aggregate (g : value * list (gmap string value))
    : result (value * nat * nat * Z) :=
  let '(k, rs) := g in
  d <-r sum_values ((fun r => cell r "duration") <$> rs);
  Ok (k,
      length (List.filter notna ((fun r => cell r "id") <$> rs)),
      length (List.filter (isin connected_outcomes)
                ((fun r => cell r "outcome") <$> rs)),
      d).

Fixpoint traverse {A B} (f : A -> result B) (l : list A) : result (list B) :=
  match l with
  | [] => Ok []
  | x :: l' =>
      y <-r f x;
      ys <-r traverse f l';
      Ok (y :: ys)
  end.

(** Lines 225-230: [filtered_df.groupby('agent').agg({...})]. *)
Definition agent_agg (filtered_df : DataFrame)
    : result (list (value * nat * nat * Z)) :=
  groups <-r groupby filtered_df "agent";
  _ <-r col filtered_df "id";
  _ <-r col filtered_df "outcome";
  _ <-r col filtered_df "duration";
  traverse aggregate groups.

(** Lines 233-239: the two derived columns of one row. *)
Definition derive (t : value * nat * nat * Z) : result agent_row :=
  let '(a, calls, conns, dur) := t in
  pct <-r agent_connection_pct (Z.of_nat conns) (Z.of_nat calls);
  Ok {| Agent := a; Total_Calls := calls; Connections := conns;
        Total_Duration := dur;
        Connection_pct := pct;
        Talk_Time := agent_talk_time dur |}.

Definition more_connections (x y : agent_row) : bool :=
  (Connections y <=? Connections x)%nat.

(** Lines 225-242: the agent table, sorted by connections, largest
    first (rows with equal connections keep the order of their keys). *)
Definition agent_stats (filtered_df : DataFrame) : result (list agent_row) :=
  agg <-r agent_agg filtered_df;
  stats <-r traverse derive agg;
  Ok (isort more_connections stats).

(** Lines 190-272: everything computed from the filtered table. *)
Definition view (filtered_df : DataFrame) : result outputs :=
  let total_calls := len filtered_df in
  connections <-r count_matching filtered_df "outcome" connected_outcomes;
  rate <-r connection_rate (Z.of_nat connections) (Z.of_nat total_calls);
  total_duration <-r
    (if has_column "duration" filtered_df
     then s <-r col filtered_df "duration"; sum_values s
     else Ok 0);
  outcome_counts <-r group_counts filtered_df "outcome" None;
  agent_counts <-r group_counts filtered_df "agent" (Some 10%nat);
  stats <-r agent_stats filtered_df;
  Ok {| out_total_calls := dec (Z.of_nat total_calls);
        out_total_connections := dec (Z.of_nat connections);
        out_connection_rate := rate;
        out_total_talk_time := talk_time total_duration;
        out_outcome_chart := Pie outcome_counts;
        out_agent_chart := Bar agent_counts;
        out_agent_table := Table stats |}.

(** Line 178: what the callback returns when there is no data. *)
Definition no_data : outputs :=
  {| out_total_calls := "0";
     out_total_connections := "0";
     out_connection_rate := "0%";
     out_total_talk_time := "0m";
     out_outcome_chart := Figure;
     out_agent_chart := Figure;
     out_agent_table := No_data |}.

Section Dashboard.

(** [pd.to_datetime(v, errors='coerce')] on one value: the parsed
    time in seconds since the epoch, [None] for [NaT].  The parser
    belongs to pandas. *)
Variable to_datetime : value -> option Z.

(** What the Firestore client answers when asked for the collection:
    there is no client ([db] is [None]), the request raises, or it
    yields the documents, each an id and its fields. *)
Definition fetch_calls
    (db : option (result (list (string * gmap string value)))) : DataFrame :=
  match db with
  | Some (Ok docs) =>
      DataFrame_of ((fun d => <["id" := Str (fst d)]> (snd d)) <$> docs)
  | Some (Raise _) => DataFrame_of []
  | None => DataFrame_of []
  end.

(** [df['callDate'] = pd.to_datetime(df['callDate'], errors='coerce')] *)
Definition parse_callDate (r : gmap string value) : value :=
  match to_datetime (cell r "callDate") with
  | Some t => Timestamp t
  | None => Null
  end.

(** [df['date'] = df['callDate'].dt.date] *)
Definition date_of (r : gmap string value) : value :=
  match cell r "callDate" with
  | Timestamp t => Date (t / 86400)
  | _ => Null
  end.

Definition process_dates (d : DataFrame) : DataFrame :=
  set_column "date" date_of (set_column "callDate" parse_callDate d).

(** Lines 50-61: the table the module starts with. *)
Definition module_init
    (db : option (result (list (string * gmap string value)))) : DataFrame :=
  let d := fetch_calls db in
  let d := if empty d then DataFrame_columns default_columns else d in
  if has_column "callDate" d && negb (empty d) then process_dates d
  else if negb (empty d) then set_column "date" (fun _ => Null) d
  else d.

Definition initial_store
    (db : option (result (list (string * gmap string value)))) : store :=
  {| heap := [module_init db]; df := 0%nat |}.

(** [pd.to_datetime(s).date()] on a string of the date picker. *)
Definition parse_day (s : string) : result Z :=
  match to_datetime (Str s) with
  | Some t => Ok (t / 86400)
  | None => Raise ValueError
  end.

(** [(date >= start) & (date <= end)] on one element; a value that is
    not a date cannot be compared with one. *)
Definition between (start end_ : Z) (v : value) : result bool :=
  match v with
  | Date d => Ok ((start <=? d) && (d <=? end_))
  | _ => Raise TypeError
  end.

(** Lines 181-188 as a function of the table: the table the KPIs are
    computed from. *)
Definition filter_by_date (start_date end_date : option string)
    (d : DataFrame) : result DataFrame :=
  let filtered_df := d in
  if truthy start_date && truthy end_date then
    start <-r parse_day (default "" start_date);
    end_ <-r parse_day (default "" end_date);
    if has_column "date" filtered_df then
      dates <-r col filtered_df "date";
      let filtered_df := select filtered_df (notna <$> dates) in
      dates <-r col filtered_df "date";
      m <-r mask (between start end_) dates;
      Ok (select filtered_df m)
    else Ok filtered_df
  else Ok filtered_df.

(** Lines 171-175: the re-fetch. *)
Definition refresh
    (db : option (result (list (string * gmap string value)))) : M unit :=
  l <-m new (fetch_calls db);
  _ <-m set_df l;
  d <-m deref l;
  if has_column "callDate" d && negb (empty d) then
    _ <-m update l (set_column "callDate" parse_callDate);
    update l (set_column "date" date_of)
  else ret tt.

(** Lines 181-188 on the heap: [df.copy()] and each boolean selection
    make a new table. *)
Definition filtered (start_date end_date : option string) (g : nat) : M nat :=
  d <-m deref g;
  filtered_df <-m new d;
  if truthy start_date && truthy end_date then
    start <-m lift (parse_day (default "" start_date));
    end_ <-m lift (parse_day (default "" end_date));
    fd <-m deref filtered_df;
    if has_column "date" fd then
      dates <-m lift (col fd "date");
      filtered_df <-m new (select fd (notna <$> dates));
      fd <-m deref filtered_df;
      dates <-m lift (col fd "date");
      m <-m lift (mask (between start end_) dates);
      new (select fd m)
    else ret filtered_df
  else ret filtered_df.

(** The callback.  [db] is what the client would answer if asked now. *)
Definition update_dashboard
    (db : option (result (list (string * gmap string value))))
    (apply_clicks : Z) (start_date end_date : option string)
    (refresh_clicks auto_refresh : Z) : M outputs :=
  _ <-m (if (refresh_clicks >? 0) || (auto_refresh >? 0)
         then refresh db else ret tt);
  g <-m get_df;
  d <-m deref g;
  if empty d then ret no_data
  else
    filtered_df <-m filtered start_date end_date g;
    fd <-m deref filtered_df;
    lift (view fd).

(** The table a re-fetch leaves behind the name [df]. *)
Definition refreshed
    (db : option (result (list (string * gmap string value)))) : DataFrame :=
  let d := fetch_calls db in
  if has_column "callDate" d && negb (empty d) then process_dates d else d.

(** The state in which the callback looks up [df]: after the re-fetch,
    when one is asked for. *)
Definition after_refresh
    (db : option (result (list (string * gmap string value))))
    (refresh_clicks auto_refresh : Z) (s : store) : store :=
  if (refresh_clicks >? 0) || (auto_refresh >? 0)
  then {| heap := heap s ++ [refreshed db]; df := length (heap s) |}
  else s.

(** The callback as a function of the table behind [df]: what it
    returns when that table is [d], or when the name is unbound. *)
Definition recompute (start_date end_date : option string)
    (d : option DataFrame) : result outputs :=
  match d with
  | None => Raise NameError
  | Some d =>
      if empty d then Ok no_data
      else
        filtered_df <-r filter_by_date start_date end_date d;
        view filtered_df
  end.

(** The states the program can be in: the one the module starts with,
    and those the callback leaves. *)
Inductive reachable : store -> Prop :=
  | reachable_init db : reachable (initial_store db)
  | reachable_step db apply_clicks start_date end_date
      refresh_clicks auto_refresh s :
      reachable s ->
      reachable
        (snd (update_dashboard db apply_clicks start_date end_date
                refresh_clicks auto_refresh s)).

End Dashboard.

End Kixie.

(** ** sales_dashboard.py: the grouped counts of [update_dashboard] *)

Module Sales.

(** Line 163: [df['setter'].value_counts().head(15)] *)
Definition setter_counts (d : DataFrame) : result (list (value * nat)) :=
  group_counts d "setter" (Some 15%nat).

(** Line 172: [df['team'].value_counts()] *)
Definition team_counts (d : DataFrame) : result (list (value * nat)) :=
  group_counts d "team" None.

(** Line 180: [df['leadSource'].value_counts()] *)
Definition source_counts (d : DataFrame) : result (list (value * nat)) :=
  group_counts d "leadSource" None.

(** Line 202: [df['rep'].value_counts().head(15)] *)
Definition rep_counts (d : DataFrame) : result (list (value * nat)) :=
  group_counts d "rep" (Some 15%nat).

End Sales.

(** ** api/index.py: the status page and [GET /api/stats] *)

Module Api.

(** A configured client answers a count request for a collection with
    an integer, or the request raises.  [db] is [None] when no client
    was set up. *)
Definition count_of (count : string -> result Z) (collection : string)
    (fallback : Z) : Z :=
  match count collection with
  | Ok v => v
  | Raise _ => fallback
  end.

(** [api_stats]: the dictionary handed to [jsonify]. *)
Definition api_stats (db : option (string -> result Z)) : gmap string Z :=
  let stats : gmap string Z := ∅ in
  match db with
  | Some count =>
      let stats := <["contacts" := count_of count "ghl_contacts" 0]> stats in
      let stats := <["opportunities" := count_of count "ghl_opportunities" 0]> stats in
      let stats := <["pipelines" := count_of count "ghl_pipelines" 0]> stats in
      let stats := <["users" := count_of count "ghl_users" 0]> stats in
      stats
  | None => stats
  end.

(** A value shown on the status page: a count, or a text. *)
Inductive shown :=
  | Count (n : Z)
  | Text (s : string).

Definition shown_count (count : string -> result Z) (collection : string)
    (previous : shown) : shown :=
  match count collection with
  | Ok v => Count v
  | Raise _ => previous
  end.

(** [index]: the dictionary handed to the page template; [now] is the
    formatted time of the request.  Every key is there, with a dash as
    its value, before the client is looked at. *)
Definition index (db : option (string -> result Z)) (now : string)
    : gmap string shown :=
  let stats : gmap string shown :=
    <["last_update" := Text "Loading..."]>
      (<["users" := Text "-"]>
         (<["pipelines" := Text "-"]>
            (<["opportunities" := Text "-"]>
               (<["contacts" := Text "-"]> ∅)))) in
  let stats :=
    match db with
    | Some count =>
        let stats := alter (shown_count count "ghl_contacts") "contacts" stats in
        let stats := alter (shown_count count "ghl_opportunities") "opportunities" stats in
        let stats := alter (shown_count count "ghl_pipelines") "pipelines" stats in
        let stats := alter (shown_count count "ghl_users") "users" stats in
        stats
    | None => stats
    end in
  <["last_update" := Text now]> stats.

End Api.

(** ** The scenario of the specification *)

Definition call (agent outcome : string) (duration : Z) : gmap string value :=
  <["agent" := Str agent]>
    (<["outcome" := Str outcome]> (<["duration" := Num duration]> ∅)).

Definition scenario_docs : list (string * gmap string value) :=
  [("c1", call "A" "connected" 120);
   ("c2", call "A" "no-answer" 0);
   ("c3", call "B" "connected" 300)].

(** A parser for examples: a time stamp is its own time, a number is a
    time in seconds, a string of decimal digits is read as such a
    number, nothing else parses. *)
Definition simple_to_datetime (v : value) : option Z :=
  match v with
  | Timestamp t => Some t
  | Num n => Some n
  | Str s => Z.of_uint <$> NilZero.uint_of_string s
  | _ => None
  end.

(** Calls on day 1, on day 5, and one without a date. *)
Definition dated_docs : list (string * gmap string value) :=
  [("c1", <["callDate" := Timestamp 90000]> (call "A" "connected" 120));
   ("c2", <["callDate" := Timestamp 432000]> (call "A" "no-answer" 0));
   ("c3", call "B" "connected" 300)].

Definition dated_frame : DataFrame :=
  Kixie.module_init simple_to_datetime (Some (Ok dated_docs)).

Definition dated_store : store :=
  Kixie.initial_store simple_to_datetime (Some (Ok dated_docs)).

(** ** Predicates used by the properties, and example data *)

(** A positive number or [+inf]. *)
Definition positive_float (x : spec_float) : Prop :=
  match x with
  | S754_finite false _ _ | S754_infinity false => True
  | _ => False
  end.

(** An agent with two hours of talk. *)
Definition two_hour_call : list (string * gmap string value) :=
  [("c1", call "A" "connected" 7200)].

(** Non-increasing by count. *)
Definition by_count_desc (x y : value * nat) : Prop := (snd y <= snd x)%nat.

(** A table of opportunities, one of them without a setter. *)
Definition setters_frame : DataFrame :=
  DataFrame_of
    [ {["id" := Str "1"; "setter" := Str "ann"]};
      {["id" := Str "2"]};
      {["id" := Str "3"; "setter" := Str "bob"]};
      {["id" := Str "4"; "setter" := Str "bob"]} ].

(** What the aggregations give on the empty table of the module. *)
Definition empty_view : Kixie.outputs :=
  {| Kixie.out_total_calls := "0";
     Kixie.out_total_connections := "0";
     Kixie.out_connection_rate := "0%";
     Kixie.out_total_talk_time := "0m";
     Kixie.out_outcome_chart := Kixie.Pie [];
     Kixie.out_agent_chart := Kixie.Bar [];
     Kixie.out_agent_table := Kixie.Table [] |}.

(** Every row of a fetched table has its document id. *)
Definition ids_present (d : DataFrame) : Prop :=
  Forall (fun r => notna (cell r "id") = true) (rows d).

(** A row of the agent table with calls behind it: it counts at
    least one call, the guard of its [Connection %] holds, and the
    column is the formatted quotient. *)
Definition row_has_calls (r : Kixie.agent_row) : Prop :=
  (1 <= Kixie.Total_Calls r)%nat
  /\ (Z.of_nat (Kixie.Total_Calls r) >? 0) = true
  /\ Kixie.agent_connection_pct
       (Z.of_nat (Kixie.Connections r)) (Z.of_nat (Kixie.Total_Calls r))
     = percent_1f (Z.of_nat (Kixie.Connections r)) (Z.of_nat (Kixie.Total_Calls r))
  /\ percent_1f (Z.of_nat (Kixie.Connections r)) (Z.of_nat (Kixie.Total_Calls r))
     = Ok (Kixie.Connection_pct r).

(** ** Further operations of kixie_dashboard.py *)

(** The number of times a value stands in a Series. *)
Definition occurrences (v : value) (s : list value) : nat :=
  length (List.filter (fun w => bool_decide (w = v)) s).

(** The range test of the date filter as a test of one cell: a date
    inside the range. *)
Definition in_range (start end_ : Z) (v : value) : bool :=
  match v with
  | Date d => (start <=? d) && (d <=? end_)
  | _ => false
  end.

(** A duration that [sum] can add: a number or a missing value. *)
Definition summable (v : value) : bool :=
  match v with
  | Null | Num _ => true
  | _ => false
  end.

Module KixieLayout.




End KixieLayout.

(** The count a tally holds for a value: that of its first entry. *)
Fixpoint count_in (acc : list (value * nat)) (v : value) : nat :=
  match acc with
  | [] => 0%nat
  | (k, n) :: acc' => if decide (k = v) then n else count_in acc' v
  end.

(** What the date filter keeps of a table, as a test of the [date] cell
    of a row: everything, unless both bounds are given and the table has
    the column. *)
Definition kept_by (to_datetime : value -> option Z)
    (start_date end_date : option string) (has_date : bool) (v : value) : bool :=
  if truthy start_date && truthy end_date && has_date then
    match Kixie.parse_day to_datetime (default "" start_date),
          Kixie.parse_day to_datetime (default "" end_date) with
    | Ok start, Ok end_ => in_range start end_ v
    | _, _ => true
    end
  else true.

(** Calls whose records have no [duration] field. *)
Definition untimed_docs : list (string * gmap string value) :=
  [("c1", <["agent" := Str "A"]> (<["outcome" := Str "connected"]> ∅));
   ("c2", <["agent" := Str "B"]> (<["outcome" := Str "no-answer"]> ∅))].

(** The columns the aggregation of the Kixie callback reads. *)
Definition view_columns : list string := ["outcome"; "agent"; "id"; "duration"].

(** The rows of a table that belong to an agent. *)
Definition agent_rows (d : DataFrame) (k : value) : list (gmap string value) :=
  List.filter (fun r => bool_decide (cell r "agent" = k)) (rows d).

(** A row of the agent table that shows, for its agent, the calls with
    an id, the calls with a connected outcome and the sum of the
    durations, with the talk time rendered from that sum. *)
Definition agent_row_for (d : DataFrame) (r : Kixie.agent_row) : Prop :=
  Kixie.Total_Calls r
  = length (List.filter (fun x => notna (cell x "id"))
              (agent_rows d (Kixie.Agent r)))
  /\ Kixie.Connections r
     = length (List.filter
                 (fun x => isin Kixie.connected_outcomes (cell x "outcome"))
                 (agent_rows d (Kixie.Agent r)))
  /\ sum_values ((fun x => cell x "duration") <$> agent_rows d (Kixie.Agent r))
     = Ok (Kixie.Total_Duration r)
  /\ Kixie.Talk_Time r = Kixie.agent_talk_time (Kixie.Total_Duration r).

(** Sorted by connections, largest first. *)
Definition by_connections_desc (x y : Kixie.agent_row) : Prop :=
  (Kixie.Connections y <= Kixie.Connections x)%nat.

(** A cell of the [date] column as the module leaves it: a date, or
    missing. *)
Definition date_or_missing (v : value) : Prop :=
  v = Null \/ exists x, v = Date x.

(** Calls whose records have neither a [callDate] nor a [date]. *)
Definition undated_docs : list (string * gmap string value) := scenario_docs.

(** ** Further operations of sales_dashboard.py

    A contact record has scalar fields and, when it has the field
    [tags], a list of strings there.  The list is kept beside the scalar
    fields of the row; the column index says whether the table has the
    column. *)

Module SalesDashboard.

Record contacts := mkContacts {
  ccolumns : list string;
  crows : list (gmap string value * option (list string))
}.

(** The scalar columns as a table. *)
Definition scalars (c : contacts) : DataFrame :=
  {| columns := ccolumns c; rows := fst <$> crows c |}.

(** [df['tags']] *)
Definition tags_column (c : contacts) : result (list (option (list string))) :=
  if bool_decide ("tags" ∈ ccolumns c) then Ok (snd <$> crows c)
  else Raise (KeyError "tags").

(** [pd.DataFrame(contacts)]: the columns are the fields seen in some
    record ([tags] among them when a record has tags). *)
Definition contacts_of
    (records : list (gmap string value * option (list string))) : contacts :=
  {| ccolumns :=
       columns (DataFrame_of (fst <$> records))
       ++ (if bool_decide (Exists (fun r => is_Some (snd r)) records)
           then ["tags"] else []);
     crows := records |}.

(** What the Firestore client answers for the collection of contacts: a
    document is its id, its scalar fields and its tags. *)
Definition fetch_contacts
    (db : option (result (list (string * gmap string value
                                * option (list string))))) : contacts :=
  match db with
  | Some (Ok docs) =>
      contacts_of
        ((fun d => (<["id" := Str (fst (fst d))]> (snd (fst d)), snd d)) <$> docs)
  | Some (Raise _) => contacts_of []
  | None => contacts_of []
  end.

Definition default_columns : list string :=
  ["id"; "firstName"; "lastName"; "phone"; "email"; "team"; "rep";
   "leadSource"; "type"; "syncedAt"; "setter"; "tags"].

(** Lines 51-58: the table the module starts with. *)
Definition module_init
    (db : option (result (list (string * gmap string value
                                * option (list string))))) : contacts :=
  let c := fetch_contacts db in
  if empty (scalars c) then {| ccolumns := default_columns; crows := [] |}
  else c.

(** [s.nunique()]: the number of distinct values that are not missing. *)
Definition nunique (s : list value) : nat :=
  length (distinct (List.filter notna s)).

(** Lines 73-88, the four numbers of the KPI cards: [len(df)],
    [df['setter'].notna().sum()], [df['setter'].nunique()] and
    [df['team'].nunique()]. *)
Definition kpis (c : contacts) : result (nat * nat * nat * nat) :=
  let total := len (scalars c) in
  setters <-r col (scalars c) "setter";
  let with_setter := length (List.filter notna setters) in
  let unique_setters := nunique setters in
  teams <-r col (scalars c) "team";
  Ok (total, with_setter, unique_setters, nunique teams).

(** Lines 189-191: the tags of all rows, one after the other. *)
Fixpoint all_tags (tags : list (option (list string))) : list string :=
  match tags with
  | [] => []
  | Some ts :: rest => ts ++ all_tags rest
  | None :: rest => all_tags rest
  end.

(** Lines 189-194: [tag_series.value_counts().head(12)] *)
Definition tag_counts (c : contacts) : result (list (value * nat)) :=
  tags <-r tags_column c;
  Ok (head 12 (value_counts (Str <$> all_tags tags))).

(** The order of the keys of a [groupby] on two columns. *)
Definition pair_leb (x y : value * value) : bool :=
  if decide (fst x = fst y) then value_leb (snd x) (snd y)
  else value_leb (fst x) (fst y).

(** The pair of keys of a row; a row with a missing key is in no group. *)
Definition key_pair (a b : string) (r : gmap string value)
    : option (value * value) :=
  if notna (cell r a) && notna (cell r b) then Some (cell r a, cell r b)
  else None.

(** [df.groupby([a, b]).size()]: one count per pair of values seen, keys
    sorted. *)
Definition group_sizes (d : DataFrame) (a b : string)
    : result (list (value * value * nat)) :=
  _ <-r col d a;
  _ <-r col d b;
  let pairs := omap (key_pair a b) (rows d) in
  Ok ((fun p => (p, length (List.filter (fun q => bool_decide (q = p)) pairs)))
        <$> isort pair_leb (remove_dups pairs)).

Inductive figure :=
  | Figure                                          (* [go.Figure()] *)
  | Bar (data : list (value * nat))
  | Pie (data : list (value * nat))
  | Funnel (data : list (value * nat))
  | Grouped (data : list (value * value * nat)).

(** Lines 211-220: the sources by team, or an empty figure when the
    table has no rows. *)
Definition source_team (c : contacts) : result figure :=
  teams <-r col (scalars c) "team";
  if negb (length teams =? 0)%nat then
    sources <-r col (scalars c) "leadSource";
    if negb (length sources =? 0)%nat then
      sizes <-r group_sizes (scalars c) "leadSource" "team";
      Ok (Grouped sizes)
    else Ok Figure
  else Ok Figure.

Definition sample_columns : list string :=
  ["firstName"; "lastName"; "phone"; "team"; "setter"; "leadSource"].

(** [df[cols]]: a selection of columns; a column that is not there is a
    [KeyError]. *)
Fixpoint check_columns (d : DataFrame) (cols : list string) : result unit :=
  match cols with
  | [] => Ok tt
  | c :: cols' =>
      if has_column c d then check_columns d cols' else Raise (KeyError c)
  end.

(** Line 223: [df[df['setter'].notna()][cols].head(25)], the cells of the
    table below the charts, row by row. *)
Definition sample (c : contacts) : result (list (list value)) :=
  setters <-r col (scalars c) "setter";
  let with_setter := select (scalars c) (notna <$> setters) in
  _ <-r check_columns with_setter sample_columns;
  Ok (head 25 ((fun r => (fun col => cell r col) <$> sample_columns)
                 <$> rows with_setter)).

Record outputs := mkOutputs {
  fig_setter : figure;
  fig_team : figure;
  fig_source : figure;
  fig_pipeline : figure;
  fig_rep : figure;
  fig_conversion : figure;
  table : list (list value)
}.

(** Lines 162-232: the charts and the table of a table of contacts. *)
Definition charts (c : contacts) : result outputs :=
  setter_counts <-r Sales.setter_counts (scalars c);
  team_counts <-r Sales.team_counts (scalars c);
  source_counts <-r Sales.source_counts (scalars c);
  tags <-r tag_counts c;
  rep_counts <-r Sales.rep_counts (scalars c);
  conversion <-r source_team c;
  rows <-r sample c;
  Ok {| fig_setter := Bar setter_counts;
        fig_team := Bar team_counts;
        fig_source := Pie source_counts;
        fig_pipeline := Funnel tags;
        fig_rep := Bar rep_counts;
        fig_conversion := conversion;
        table := rows |}.

(** The callback: [df] is the table behind the module-level name when
    the callback starts; the result comes with the table behind it when
    the callback ends.  [db] is what the client would answer if asked
    now. *)
Definition update_dashboard
    (db : option (result (list (string * gmap string value
                                * option (list string)))))
    (n_clicks : Z) (df : contacts) : result outputs * contacts :=
  let df := if n_clicks >? 0 then fetch_contacts db else df in
  (charts df, df).

End SalesDashboard.

(** Three contacts with the tags of the scenario of the specification. *)
Definition tagged_docs
    : list (string * gmap string value * option (list string)) :=
  [("a", {["firstName" := Str "Ann"; "lastName" := Str "Lee";
           "phone" := Str "1"; "team" := Str "north"; "rep" := Str "r1";
           "leadSource" := Str "web"; "setter" := Str "sam"]}, Some ["new"]);
   ("b", {["firstName" := Str "Bob"; "lastName" := Str "Ray";
           "phone" := Str "2"; "team" := Str "north"; "rep" := Str "r1";
           "leadSource" := Str "web"]}, Some ["new"; "hot"]);
   ("c", {["firstName" := Str "Cy"; "lastName" := Str "Orr";
           "phone" := Str "3"; "team" := Str "south"; "rep" := Str "r2";
           "leadSource" := Str "door"; "setter" := Str "sam"]}, Some ["hot"])].

Definition tagged_contacts : SalesDashboard.contacts :=
  SalesDashboard.fetch_contacts (Some (Ok tagged_docs)).

(** The charts and the table of a table of contacts without rows. *)
Definition empty_charts : SalesDashboard.outputs :=
  {| SalesDashboard.fig_setter := SalesDashboard.Bar [];
     SalesDashboard.fig_team := SalesDashboard.Bar [];
     SalesDashboard.fig_source := SalesDashboard.Pie [];
     SalesDashboard.fig_pipeline := SalesDashboard.Funnel [];
     SalesDashboard.fig_rep := SalesDashboard.Bar [];
     SalesDashboard.fig_conversion := SalesDashboard.Figure;
     SalesDashboard.table := [] |}.

(** The columns the Sales callback reads. *)
Definition chart_columns : list string :=
  ["setter"; "team"; "leadSource"; "tags"; "rep";
   "firstName"; "lastName"; "phone"].


(** * Properties *)

(** ** Percentages *)

Example percent_two_thirds : percent_1f 2 3 = Ok "66.7%".
Proof. vm_compute. reflexivity. Qed.

Example percent_half : percent_1f 1 2 = Ok "50.0%".
Proof. vm_compute. reflexivity. Qed.

Example percent_all : percent_1f 7 7 = Ok "100.0%".
Proof. vm_compute. reflexivity. Qed.

Example percent_tie : percent_1f 1 2000 = Ok "0.1%".
Proof. vm_compute. reflexivity. Qed.

Example percent_by_zero : percent_1f 1 0 = Raise ZeroDivisionError.
Proof. reflexivity. Qed.

(** ** Binary64 conversion of a positive integer

    The float of a positive integer is a positive number or [+inf]; it
    is never zero and never [nan], so a quotient by it is defined. *)

Section Float64_facts.

Lemma shr_1_div2 r : 0 <= shr_m r -> shr_m (shr_1 r) = Z.div2 (shr_m r).
Proof.
  destruct r as [m b s]. simpl. intros H.
  destruct m as [|p|p]; [reflexivity| |lia].
  destruct p; reflexivity.
Qed.

Lemma iter_shr_1 n r :
  0 <= shr_m r ->
  shr_m (SpecFloat.iter_pos shr_1 n r) = shr_m r / 2 ^ Z.pos n.
Proof.
  revert r. induction n as [n IH|n IH|]; intros r Hr; simpl SpecFloat.iter_pos.
  - assert (H1 : 0 <= shr_m (shr_1 r)).
    { rewrite shr_1_div2 by assumption. rewrite Z.div2_div.
      apply Z.div_pos; lia. }
    assert (H2 : 0 <= shr_m (SpecFloat.iter_pos shr_1 n (shr_1 r))).
    { rewrite IH by assumption. apply Z.div_pos; lia. }
    rewrite IH by assumption. rewrite IH by assumption.
    rewrite shr_1_div2 by assumption. rewrite Z.div2_div.
    rewrite !Z.div_div by lia. f_equal.
    rewrite Pos2Z.inj_xI. rewrite <- Z.pow_add_r by lia.
    replace (2 * (2 ^ (Z.pos n + Z.pos n)))
      with (2 ^ 1 * 2 ^ (Z.pos n + Z.pos n)) by reflexivity.
    rewrite <- Z.pow_add_r by lia. f_equal. lia.
  - assert (H2 : 0 <= shr_m (SpecFloat.iter_pos shr_1 n r)).
    { rewrite IH by assumption. apply Z.div_pos; lia. }
    rewrite IH by assumption. rewrite IH by assumption.
    rewrite !Z.div_div by lia. f_equal.
    rewrite Pos2Z.inj_xO. rewrite <- Z.pow_add_r by lia. f_equal. lia.
  - rewrite shr_1_div2 by assumption. rewrite Z.div2_div. reflexivity.
Qed.

Lemma digits2_pos_lower p : 2 ^ (Z.pos (digits2_pos p) - 1) <= Z.pos p.
Proof.
  induction p as [p IH|p IH|]; simpl digits2_pos.
  - rewrite Pos2Z.inj_succ.
    replace (Z.succ (Z.pos (digits2_pos p)) - 1)
      with (Z.succ (Z.pos (digits2_pos p) - 1)) by lia.
    rewrite Z.pow_succ_r by lia. lia.
  - rewrite Pos2Z.inj_succ.
    replace (Z.succ (Z.pos (digits2_pos p)) - 1)
      with (Z.succ (Z.pos (digits2_pos p) - 1)) by lia.
    rewrite Z.pow_succ_r by lia. lia.
  - simpl. lia.
Qed.

Lemma shr_record_of_loc_m m l : shr_m (shr_record_of_loc m l) = m.
Proof. destruct l as [|[]]; reflexivity. Qed.

(** Shifting a positive mantissa to its canonical exponent leaves a
    positive mantissa, as long as the exponent is not below [emin]. *)
Lemma shr_fexp_positive m e l :
  0 < m -> -1074 <= e ->
  0 < shr_m (fst (shr_fexp Float64.prec Float64.emax m e l))
  /\ -1074 <= snd (shr_fexp Float64.prec Float64.emax m e l).
Proof.
  intros Hm He. unfold shr_fexp, shr.
  destruct m as [|p|p]; try lia. simpl Zdigits2.
  unfold fexp, SpecFloat.emin, Float64.prec, Float64.emax.
  destruct (Z.max (Z.pos (digits2_pos p) + e - 53) (3 - 1024 - 53) - e)
    as [|n|n] eqn:Hn; simpl fst; simpl snd;
    rewrite ?shr_record_of_loc_m; try (split; lia).
  rewrite iter_shr_1 by (rewrite shr_record_of_loc_m; lia).
  rewrite shr_record_of_loc_m. split; [|lia].
  assert (Hd : Z.pos n = Z.pos (digits2_pos p) - 53) by lia.
  apply Z.div_str_pos. split; [apply Z.pow_pos_nonneg; lia|].
  etransitivity; [|apply digits2_pos_lower].
  apply Z.pow_le_mono_r; lia.
Qed.

Lemma round_nearest_even_ge m l : m <= round_nearest_even m l.
Proof. destruct l as [|[]]; simpl; try lia. destruct (Z.even m); lia. Qed.

Lemma binary_round_aux_positive m e l :
  0 < m -> -1074 <= e ->
  positive_float (binary_round_aux Float64.prec Float64.emax false m e l).
Proof.
  intros Hm He. unfold binary_round_aux.
  destruct (shr_fexp_positive m e l Hm He) as [H1 H2].
  destruct (shr_fexp Float64.prec Float64.emax m e l) as [mrs' e'].
  simpl in H1, H2.
  pose proof (round_nearest_even_ge (shr_m mrs') (loc_of_shr_record mrs')) as Hr.
  destruct (shr_fexp_positive
              (round_nearest_even (shr_m mrs') (loc_of_shr_record mrs'))
              e' loc_Exact) as [H3 H4]; [lia|lia|].
  destruct (shr_fexp _ _ (round_nearest_even _ _) e' loc_Exact) as [mrs'' e''].
  simpl in H3. destruct (shr_m mrs'') as [|q|q]; try lia.
  destruct (e'' <=? Float64.emax - Float64.prec); exact I.
Qed.

Lemma of_Z_positive d : 0 < d -> positive_float (Float64.of_Z d).
Proof.
  intros Hd. destruct d as [|p|p]; try lia.
  unfold Float64.of_Z, binary_normalize, binary_round.
  destruct (shl_align p 0 _) as [mz ez] eqn:Hs.
  apply binary_round_aux_positive; [lia|].
  unfold shl_align in Hs.
  destruct (fexp Float64.prec Float64.emax (Z.pos (digits2_pos p) + 0) - 0)
    eqn:Hf; inversion Hs; subst; try lia.
  unfold fexp, SpecFloat.emin, Float64.prec, Float64.emax. lia.
Qed.

(** [0/d*100] prints as ["0.0%"] for every positive [d]. *)
Lemma percent_1f_zero d : 0 < d -> percent_1f 0 d = Ok "0.0%".
Proof.
  intros Hd. unfold percent_1f, true_div.
  destruct (Z.eqb_spec d 0) as [|_]; [lia|]. simpl rbind.
  pose proof (of_Z_positive d Hd) as Hp.
  destruct (Float64.of_Z d) as [s|s| |s m e]; simpl in Hp;
    try contradiction; destruct s; try contradiction; reflexivity.
Qed.

End Float64_facts.

(** ** Talk time *)

(** The KPI site follows the canonical rule on every duration that is not
    negative. *)
Lemma talk_time_canonical (s : Z) :
  0 <= s -> Kixie.talk_time s = format_duration_spec s.
Proof.
  intros Hs. unfold Kixie.talk_time, format_duration_spec.
  rewrite Z.quot_div_nonneg by lia.
  destruct (Z.gtb_spec (s / 60) 60), (Z.leb_spec (s / 60) 60); try lia; reflexivity.
Qed.

(** The per-agent site follows it below one hour. *)
Lemma agent_talk_time_below_hour (x : Z) :
  0 <= x < 3600 -> Kixie.agent_talk_time x = format_duration_spec x.
Proof.
  intros Hx. unfold Kixie.agent_talk_time, format_duration_spec.
  rewrite Z.quot_div_nonneg by lia.
  assert (x / 60 < 60) by (apply Z.div_lt_upper_bound; lia).
  destruct (Z.ltb_spec x 3600), (Z.leb_spec (x / 60) 60); try lia; reflexivity.
Qed.

(** C1: the per-agent Talk Time column does not render the canonical
    duration rule.  For an agent with 7200 seconds of talk the column
    shows "120h 0m", where the rule, and the Total Talk Time KPI computed
    from the same table, give "2h 0m": the column prints the minutes as
    hours and the remaining seconds as minutes. *)
Theorem agent_talk_time_two_hours (to_datetime : value -> option Z) :
  Kixie.agent_talk_time 7200 = "120h 0m"
  /\ format_duration_spec 7200 = "2h 0m"
  /\ Kixie.talk_time 7200 = "2h 0m"
  /\ exists out row,
       fst (Kixie.update_dashboard to_datetime (Some (Ok two_hour_call))
              0 None None 0 0
              (Kixie.initial_store to_datetime (Some (Ok two_hour_call))))
       = Ok out
       /\ Kixie.out_total_talk_time out = "2h 0m"
       /\ Kixie.out_agent_table out = Kixie.Table [row]
       /\ Kixie.Total_Duration row = 7200
       /\ Kixie.Talk_Time row = "120h 0m".
Proof.
  repeat split; try (vm_compute; reflexivity).
  eexists. eexists. vm_compute. repeat split; reflexivity.
Qed.

(** ** The scenario *)

(** C2: on the three records of the scenario, with no date filter, the
    total is 3, two outcomes are connected ones, the connection rate is
    "66.7%", and grouping by agent gives A two calls, one connection and
    120 seconds, B one call, one connection and 300 seconds. *)
Theorem scenario_aggregates (to_datetime : value -> option Z) :
  let d := Kixie.fetch_calls (Some (Ok scenario_docs)) in
  len d = 3%nat
  /\ count_matching d "outcome" Kixie.connected_outcomes = Ok 2%nat
  /\ Kixie.connection_rate 2 3 = Ok "66.7%"
  /\ Kixie.agent_agg d
     = Ok [(Str "A", 2%nat, 1%nat, 120); (Str "B", 1%nat, 1%nat, 300)]
  /\ exists out a b,
       fst (Kixie.update_dashboard to_datetime (Some (Ok scenario_docs))
              0 None None 0 0
              (Kixie.initial_store to_datetime (Some (Ok scenario_docs))))
       = Ok out
       /\ Kixie.out_total_calls out = "3"
       /\ Kixie.out_total_connections out = "2"
       /\ Kixie.out_connection_rate out = "66.7%"
       /\ Kixie.out_agent_table out = Kixie.Table [a; b]
       /\ (Kixie.Agent a, Kixie.Total_Calls a, Kixie.Connections a,
           Kixie.Total_Duration a) = (Str "A", 2%nat, 1%nat, 120)
       /\ (Kixie.Agent b, Kixie.Total_Calls b, Kixie.Connections b,
           Kixie.Total_Duration b) = (Str "B", 1%nat, 1%nat, 300).
Proof.
  repeat split; try (vm_compute; reflexivity).
  do 3 eexists. vm_compute. repeat split; reflexivity.
Qed.

(** ** Rates *)

(** C3: at both rate sites (the dashboard-wide connection rate and the
    per-agent [Connection %]) a zero denominator gives "0%" without
    dividing, and a positive denominator gives [n/d*100] printed with one
    decimal and a percent sign; a zero numerator over a positive
    denominator gives "0.0%".  On denominators that are not negative both
    sites are the [rate] of the specification. *)
Theorem rate_call_sites (n d : Z) :
  0 <= d ->
  (d = 0 ->
   Kixie.connection_rate n d = Ok "0%"
   /\ Kixie.agent_connection_pct n d = Ok "0%")
  /\ (0 < d ->
      Kixie.connection_rate n d
      = Ok (Float64.fmt_1f
              (Float64.mul (Float64.div (Float64.of_Z n) (Float64.of_Z d))
                 (Float64.of_Z 100)) ++ "%")
      /\ Kixie.agent_connection_pct n d = Kixie.connection_rate n d
      /\ Kixie.connection_rate 0 d = Ok "0.0%"
      /\ Kixie.agent_connection_pct 0 d = Ok "0.0%")
  /\ Kixie.connection_rate n d = rate_spec n d
  /\ Kixie.agent_connection_pct n d = rate_spec n d.
Proof.
  intros Hd.
  unfold Kixie.connection_rate, Kixie.agent_connection_pct, rate_spec.
  destruct (Z.gtb_spec d 0), (Z.eqb_spec d 0); try lia.
  - split; [lia|]. split; [|by split]. intros _.
    repeat split; try (apply percent_1f_zero; lia).
    unfold percent_1f, true_div. destruct (Z.eqb_spec d 0); [lia|reflexivity].
  - split; [by split|]. split; [lia|by split].
Qed.

Lemma rate_call_sites_witness :
  0 <= 3
  /\ Kixie.connection_rate 2 3 = Ok "66.7%"
  /\ Kixie.agent_connection_pct 2 3 = Ok "66.7%"
  /\ Kixie.connection_rate 0 3 = Ok "0.0%".
Proof.
  split; [lia|].
  pose proof (rate_call_sites 2 3 ltac:(lia)) as (_ & H & _).
  destruct (H ltac:(lia)) as (H1 & H2 & H3 & _).
  split; [rewrite H1; vm_compute; reflexivity|].
  split; [rewrite H2, H1; vm_compute; reflexivity|exact H3].
Defined.

(** ** Matching counts *)

Lemma select_rows_length {A} (l : list A) (m : list bool) :
  (length (select_rows l m) <= length l)%nat.
Proof.
  revert m. induction l as [|x l IH]; intros [|[] m]; simpl; try lia.
  - specialize (IH m). lia.
  - specialize (IH m). lia.
Qed.

(** C7: the number of rows whose value in a column is one of a set of
    labels is defined whenever the column exists, and is at most the
    number of rows. *)
Theorem count_matching_le_total (d : DataFrame) (c : string) (P : list string) :
  has_column c d = true ->
  exists n, count_matching d c P = Ok n /\ (n <= len d)%nat.
Proof.
  intros Hc. unfold count_matching, col. rewrite Hc. simpl.
  eexists. split; [reflexivity|]. unfold len. simpl. apply select_rows_length.
Qed.

Lemma count_matching_le_total_witness :
  has_column "outcome" (Kixie.fetch_calls (Some (Ok scenario_docs))) = true
  /\ exists n,
       count_matching (Kixie.fetch_calls (Some (Ok scenario_docs))) "outcome"
         Kixie.connected_outcomes = Ok n
       /\ (n <= len (Kixie.fetch_calls (Some (Ok scenario_docs))))%nat.
Proof.
  split; [vm_compute; reflexivity|].
  apply (count_matching_le_total _ "outcome" Kixie.connected_outcomes).
  vm_compute. reflexivity.
Defined.

(** ** The status API *)

(** With a client, the response has the four counts, each the fetched
    integer or 0 when its fetch raised. *)
Lemma api_stats_with_client (count : string -> result Z) :
  Api.api_stats (Some count) !! "contacts"
    = Some (Api.count_of count "ghl_contacts" 0)
  /\ Api.api_stats (Some count) !! "opportunities"
    = Some (Api.count_of count "ghl_opportunities" 0)
  /\ Api.api_stats (Some count) !! "pipelines"
    = Some (Api.count_of count "ghl_pipelines" 0)
  /\ Api.api_stats (Some count) !! "users"
    = Some (Api.count_of count "ghl_users" 0).
Proof. unfold Api.api_stats. repeat split; by simplify_map_eq. Qed.

Lemma count_of_failure (count : string -> result Z) (c : string) (e : exn) :
  count c = Raise e -> Api.count_of count c 0 = 0.
Proof. intros H. unfold Api.count_of. by rewrite H. Qed.

(** C8: without a client (the record source is unconfigured) the
    response of [GET /api/stats] is the empty object: none of the four
    counts is in it, where the specification promises four integers,
    0 for a count that could not be fetched.  The status page, computed
    from the same client, has all four keys. *)
Theorem api_stats_without_client (now : string) :
  Api.api_stats None = ∅
  /\ Api.api_stats None !! "contacts" = None
  /\ Api.api_stats None !! "opportunities" = None
  /\ Api.api_stats None !! "pipelines" = None
  /\ Api.api_stats None !! "users" = None
  /\ is_Some (Api.index None now !! "contacts")
  /\ is_Some (Api.index None now !! "opportunities")
  /\ is_Some (Api.index None now !! "pipelines")
  /\ is_Some (Api.index None now !! "users").
Proof.
  unfold Api.api_stats, Api.index.
  repeat split; try done; by simplify_map_eq.
Qed.

(** ** Grouped counts *)

Section Sort_facts.
Context {A : Type} (before : A -> A -> bool).
Hypothesis before_total : forall x y, before x y = true \/ before y x = true.
Hypothesis before_trans :
  forall x y z, before x y = true -> before y z = true -> before x z = true.

Lemma insert_sorted_Permutation (x : A) (l : list A) :
  insert_sorted before x l ≡ₚ x :: l.
Proof.
  induction l as [|y l IH]; simpl; [done|].
  destruct (before x y); [done|].
  rewrite IH. apply Permutation_swap.
Qed.

Lemma isort_Permutation (l : list A) : isort before l ≡ₚ l.
Proof.
  induction l as [|x l IH]; simpl; [done|].
  rewrite insert_sorted_Permutation. by rewrite IH.
Qed.

Lemma insert_sorted_StronglySorted (x : A) (l : list A) :
  StronglySorted (fun a b => before a b = true) l ->
  StronglySorted (fun a b => before a b = true) (insert_sorted before x l).
Proof.
  induction 1 as [|y l Hl IH Hy]; simpl.
  - repeat constructor.
  - destruct (before x y) eqn:Hxy.
    + constructor; [by constructor|].
      constructor; [done|].
      eapply Forall_impl; [exact Hy|]. intros z Hz. by eapply before_trans.
    + constructor; [done|].
      rewrite insert_sorted_Permutation. constructor; [|done].
      destruct (before_total x y) as [H|H]; congruence.
Qed.

Lemma isort_StronglySorted (l : list A) :
  StronglySorted (fun a b => before a b = true) (isort before l).
Proof.
  induction l as [|x l IH]; simpl; [constructor|].
  by apply insert_sorted_StronglySorted.
Qed.
End Sort_facts.

Lemma StronglySorted_weaken {A} (R R' : A -> A -> Prop) (l : list A) :
  (forall x y, R x y -> R' x y) -> StronglySorted R l -> StronglySorted R' l.
Proof.
  intros HR. induction 1 as [|x l Hl IH Hx]; constructor; [done|].
  eapply Forall_impl; [exact Hx|]. intros y. apply HR.
Qed.

Lemma StronglySorted_take {A} (R : A -> A -> Prop) (n : nat) (l : list A) :
  StronglySorted R l -> StronglySorted R (take n l).
Proof.
  intros H. revert n. induction H as [|x l Hl IH Hx]; intros [|n]; simpl;
    try constructor; [apply IH|by apply Forall_take].
Qed.

Lemma value_counts_sorted (s : list value) :
  StronglySorted by_count_desc (value_counts s).
Proof.
  unfold value_counts.
  eapply StronglySorted_weaken; [|apply isort_StronglySorted].
  - intros x y H. unfold more_frequent in H. unfold by_count_desc.
    by apply Nat.leb_le.
  - intros x y. unfold more_frequent. rewrite !Nat.leb_le. lia.
  - intros x y z. unfold more_frequent. rewrite !Nat.leb_le. lia.
Qed.

Lemma count_into_sum (v : value) (acc : list (value * nat)) :
  sum_list_with snd (count_into v acc) = S (sum_list_with snd acc).
Proof.
  induction acc as [|[k n] acc IH]; simpl; [done|].
  destruct (decide (k = v)); simpl; lia.
Qed.

Lemma tally_sum_from (s : list value) (acc : list (value * nat)) :
  sum_list_with snd
    (foldl (fun acc v => if isnull v then acc else count_into v acc) acc s)
  = (sum_list_with snd acc + length (List.filter notna s))%nat.
Proof.
  revert acc. induction s as [|v s IH]; intros acc; simpl; [lia|].
  rewrite IH. unfold notna. destruct (isnull v); simpl; [lia|].
  rewrite count_into_sum. lia.
Qed.

Lemma value_counts_sum (s : list value) :
  sum_list_with snd (value_counts s) = length (List.filter notna s).
Proof.
  unfold value_counts.
  rewrite (isort_Permutation more_frequent (tally s)).
  unfold tally. by rewrite tally_sum_from.
Qed.

Lemma notna_isnull_length (s : list value) :
  (length (List.filter notna s) + length (List.filter isnull s))%nat = length s.
Proof.
  induction s as [|v s IH]; simpl; [done|].
  destruct v; simpl; lia.
Qed.

(** C4: for a column of the table, the grouped counts, whole or cut to
    the top N, are sorted by count, largest first, and the counts of all
    groups add up to the number of rows whose value in the column is not
    missing: the row count minus the missing values. *)
Theorem group_counts_sorted_sum (d : DataFrame) (c : string) (top_n : option nat) :
  has_column c d = true ->
  exists s counts all,
    col d c = Ok s
    /\ group_counts d c top_n = Ok counts
    /\ group_counts d c None = Ok all
    /\ StronglySorted by_count_desc counts
    /\ sum_list_with snd all = length (List.filter notna s)
    /\ sum_list_with snd all = (len d - length (List.filter isnull s))%nat.
Proof.
  intros Hc. unfold group_counts, col. rewrite Hc. simpl.
  do 3 eexists. repeat split.
  - destruct top_n as [n|]; [apply StronglySorted_take|]; apply value_counts_sorted.
  - apply value_counts_sum.
  - rewrite value_counts_sum.
    pose proof (notna_isnull_length ((fun r => cell r c) <$> rows d)) as H.
    rewrite length_fmap in H. unfold len. lia.
Qed.

(** The grouped counts of the dashboards are instances of
    [group_counts]. *)
Remark value_counts_call_sites (d : DataFrame) :
  Sales.setter_counts d = group_counts d "setter" (Some 15%nat)
  /\ Sales.team_counts d = group_counts d "team" None
  /\ Sales.source_counts d = group_counts d "leadSource" None
  /\ Sales.rep_counts d = group_counts d "rep" (Some 15%nat).
Proof. repeat split. Qed.

Example setter_counts_example :
  Sales.setter_counts setters_frame = Ok [(Str "bob", 2%nat); (Str "ann", 1%nat)].
Proof. vm_compute. reflexivity. Qed.

Lemma group_counts_sorted_sum_witness :
  has_column "setter" setters_frame = true
  /\ exists s counts all,
       col setters_frame "setter" = Ok s
       /\ group_counts setters_frame "setter" (Some 15%nat) = Ok counts
       /\ group_counts setters_frame "setter" None = Ok all
       /\ StronglySorted by_count_desc counts
       /\ sum_list_with snd all = length (List.filter notna s)
       /\ sum_list_with snd all
          = (len setters_frame - length (List.filter isnull s))%nat.
Proof.
  split; [vm_compute; reflexivity|].
  apply (group_counts_sorted_sum setters_frame "setter" (Some 15%nat)).
  vm_compute. reflexivity.
Defined.

(** ** The date filter *)

Lemma select_rows_all {A} (f : A -> bool) (l : list A) :
  Forall (fun x => f x = true) l -> select_rows l (f <$> l) = l.
Proof.
  induction 1 as [|x l Hx Hl IH]; csimpl; [done|].
  rewrite Hx. by rewrite IH.
Qed.

(** The rows a mask selects are rows at which the comparison held. *)
Lemma mask_selected {A} (p : value -> result bool) (g : A -> value)
    (l : list A) (m : list bool) :
  mask p (g <$> l) = Ok m ->
  Forall (fun x => p (g x) = Ok true) (select_rows l m).
Proof.
  revert m. induction l as [|x l IH]; intros m; csimpl.
  - intros [= <-]. constructor.
  - destruct (p (g x)) as [b|e] eqn:Hp; csimpl; [|done].
    destruct (mask p (g <$> l)) as [m'|e] eqn:Hm; csimpl; [|done].
    intros [= <-]. destruct b; [constructor; [done|]|]; by apply IH.
Qed.

Lemma mask_all {A} (p : value -> result bool) (g : A -> value) (l : list A) :
  Forall (fun x => p (g x) = Ok true) l ->
  mask p (g <$> l) = Ok ((fun _ => true) <$> l).
Proof.
  induction 1 as [|x l Hx Hl IH]; csimpl; [done|].
  rewrite Hx. csimpl. rewrite IH. done.
Qed.

Lemma between_true_notna (start end_ : Z) (v : value) :
  Kixie.between start end_ v = Ok true -> notna v = true.
Proof. by destruct v. Qed.

Lemma col_present (d : DataFrame) (c : string) :
  has_column c d = true -> col d c = Ok ((fun r => cell r c) <$> rows d).
Proof. intros H. unfold col. by rewrite H. Qed.

Lemma reselect (start end_ : Z) (c : string) (l : list (gmap string value))
    (m : list bool) :
  mask (Kixie.between start end_) ((fun r => cell r c) <$> l) = Ok m ->
  select_rows (select_rows l m)
    (notna <$> ((fun r => cell r c) <$> select_rows l m)) = select_rows l m
  /\ mask (Kixie.between start end_) ((fun r => cell r c) <$> select_rows l m)
     = Ok ((fun _ => true) <$> select_rows l m)
  /\ select_rows (select_rows l m) ((fun _ => true) <$> select_rows l m)
     = select_rows l m.
Proof.
  intros Hm. pose proof (mask_selected _ _ _ _ Hm) as Hall.
  split; [|split].
  - rewrite <- list_fmap_compose. apply select_rows_all.
    eapply Forall_impl; [exact Hall|]. intros r Hr. simpl in *.
    by eapply between_true_notna.
  - by apply mask_all.
  - apply (select_rows_all (fun _ => true)). by apply Forall_forall.
Qed.

(** C5: filtering by a date range a table that was already filtered by
    that range gives the table back; and when a bound of the range is not
    supplied the filter gives its input back. *)
Theorem filter_by_date_idempotent (to_datetime : value -> option Z)
    (start_date end_date : option string) (d d' : DataFrame) :
  Kixie.filter_by_date to_datetime start_date end_date d = Ok d' ->
  Kixie.filter_by_date to_datetime start_date end_date d' = Ok d'
  /\ Kixie.filter_by_date to_datetime None None d = Ok d
  /\ Kixie.filter_by_date to_datetime None end_date d = Ok d
  /\ Kixie.filter_by_date to_datetime start_date None d = Ok d.
Proof.
  intros H. split.
  2:{ unfold Kixie.filter_by_date. cbn [truthy andb]. by rewrite andb_false_r. }
  revert H. unfold Kixie.filter_by_date.
  destruct (truthy start_date && truthy end_date); [|by intros [= <-]].
  destruct (Kixie.parse_day to_datetime (default "" start_date))
    as [start|e]; cbn [rbind]; [|done].
  destruct (Kixie.parse_day to_datetime (default "" end_date))
    as [end_|e]; cbn [rbind]; [|done].
  destruct d as [cols rws]. unfold col, has_column, select. cbn [columns rows].
  destruct (bool_decide (elem_of "date" cols)) eqn:Hc;
    [|intros [= <-]; cbn [columns]; by rewrite Hc].
  cbn [rbind].
  destruct (mask _ _) as [m|e] eqn:Hm; cbn [rbind]; [|done].
  intros [= <-]. cbn [columns rows]. rewrite Hc. cbn [rbind].
  destruct (reselect _ _ _ _ _ Hm) as (H1 & H2 & H3).
  rewrite H1, H2. cbn [rbind]. by rewrite H3.
Qed.

Lemma filter_by_date_idempotent_witness :
  exists kept,
    Kixie.filter_by_date simple_to_datetime (Some "86400") (Some "172800")
      dated_frame = Ok kept
    /\ len kept = 1%nat
    /\ Kixie.filter_by_date simple_to_datetime (Some "86400") (Some "172800")
         kept = Ok kept.
Proof.
  destruct (Kixie.filter_by_date simple_to_datetime (Some "86400")
              (Some "172800") dated_frame) as [kept|e] eqn:H.
  - exists kept. split; [reflexivity|]. split.
    + revert H. vm_compute. intros [= <-]. reflexivity.
    + exact (proj1 (filter_by_date_idempotent simple_to_datetime
                      (Some "86400") (Some "172800") dated_frame kept H)).
  - exfalso. revert H. vm_compute. discriminate.
Defined.

(** ** The callback and the table behind [df] *)

Lemma lookup_snoc {A} (h : list A) (x : A) : (h ++ [x])%list !! length h = Some x.
Proof. by apply list_lookup_middle. Qed.

Lemma alter_snoc {A} (f : A -> A) (h : list A) (x : A) :
  alter f (length h) (h ++ [x])%list = (h ++ [f x])%list.
Proof.
  replace (length h) with (length h + 0)%nat by lia.
  by rewrite alter_app_r.
Qed.

Section Callback_facts.
Variable to_datetime : value -> option Z.

Lemma refresh_run (db : option (result (list (string * gmap string value))))
    (s : store) :
  Kixie.refresh to_datetime db s
  = (Ok tt, {| heap := heap s ++ [Kixie.refreshed to_datetime db];
               df := length (heap s) |}).
Proof.
  unfold Kixie.refresh, Kixie.refreshed, bind, new, set_df, deref, update, ret.
  cbn [heap df]. rewrite lookup_snoc.
  destruct (has_column "callDate" (Kixie.fetch_calls db)
            && negb (empty (Kixie.fetch_calls db))); [|done].
  cbn [heap df]. by rewrite !alter_snoc.
Qed.

(** The heap version of the filter computes [filter_by_date] of the
    table it is given; it only adds objects to the heap. *)
Lemma filtered_run (start_date end_date : option string) (g : nat)
    (s : store) (d : DataFrame) :
  heap s !! g = Some d ->
  exists ext,
    snd (Kixie.filtered to_datetime start_date end_date g s)
    = {| heap := heap s ++ ext; df := df s |}
    /\ match Kixie.filter_by_date to_datetime start_date end_date d with
       | Ok d' =>
           exists l,
             fst (Kixie.filtered to_datetime start_date end_date g s) = Ok l
             /\ (heap s ++ ext)%list !! l = Some d'
       | Raise e =>
           fst (Kixie.filtered to_datetime start_date end_date g s) = Raise e
       end.
Proof.
  intros Hg.
  unfold Kixie.filtered, Kixie.filter_by_date, bind, new, deref, lift, ret.
  rewrite Hg. cbn [heap df].
  destruct (truthy start_date && truthy end_date).
  2:{ exists [d]. split; [done|]. exists (length (heap s)).
      split; [done|]. apply lookup_snoc. }
  destruct (Kixie.parse_day to_datetime (default "" start_date)) as [start|e];
    cbn [rbind]; [|by exists [d]].
  destruct (Kixie.parse_day to_datetime (default "" end_date)) as [end_|e];
    cbn [rbind]; [|by exists [d]].
  cbn [heap df]. rewrite lookup_snoc.
  destruct (has_column "date" d) eqn:Hc.
  2:{ exists [d]. split; [done|]. exists (length (heap s)).
      split; [done|]. apply lookup_snoc. }
  rewrite (col_present d "date" Hc). cbn [rbind heap df].
  rewrite lookup_snoc.
  set (d1 := select d _).
  assert (Hc1 : has_column "date" d1 = true) by exact Hc.
  rewrite (col_present d1 "date" Hc1). cbn [rbind].
  destruct (mask _ _) as [m|e]; cbn [rbind heap df fst snd].
  - exists [d; d1; select d1 m]. split.
    + by rewrite <- !app_assoc.
    + eexists. split; [done|].
      replace (heap s ++ [d; d1; select d1 m])%list
        with (((heap s ++ [d]) ++ [d1]) ++ [select d1 m])%list
        by (by rewrite <- !app_assoc).
      apply lookup_snoc.
  - exists [d; d1]. split; [|done]. by rewrite <- !app_assoc.
Qed.

(** The callback returns [recompute] of the table behind [df], leaves
    the name bound as the re-fetch left it, and only adds objects to
    the heap. *)
Lemma update_dashboard_run
    (db : option (result (list (string * gmap string value))))
    (apply_clicks : Z) (start_date end_date : option string)
    (refresh_clicks auto_refresh : Z) (s : store) :
  let mid := Kixie.after_refresh to_datetime db refresh_clicks auto_refresh s in
  exists ext,
    Kixie.update_dashboard to_datetime db apply_clicks start_date end_date
      refresh_clicks auto_refresh s
    = (Kixie.recompute to_datetime start_date end_date (heap mid !! df mid),
       {| heap := heap mid ++ ext; df := df mid |})
    /\ (heap mid !! df mid = None -> ext = []).
Proof.
  intros mid.
  assert (Hmid :
    (if (refresh_clicks >? 0) || (auto_refresh >? 0)
     then Kixie.refresh to_datetime db else ret ()) s = (Ok tt, mid)).
  { unfold mid, Kixie.after_refresh.
    destruct ((refresh_clicks >? 0) || (auto_refresh >? 0));
      [apply refresh_run|done]. }
  unfold Kixie.update_dashboard. unfold bind at 1. rewrite Hmid.
  clearbody mid. clear Hmid.
  unfold bind at 1. unfold get_df at 1.
  unfold bind at 1. unfold deref at 1.
  unfold Kixie.recompute.
  destruct (heap mid !! df mid) as [d|] eqn:Hd.
  2:{ exists []. rewrite app_nil_r. by destruct mid. }
  destruct (empty d).
  { exists []. rewrite app_nil_r. by destruct mid. }
  destruct (filtered_run start_date end_date (df mid) mid d Hd)
    as (ext & Hs & Hr).
  unfold bind at 1.
  destruct (Kixie.filtered to_datetime start_date end_date (df mid) mid)
    as [r s'].
  cbn [fst snd] in Hs, Hr. subst s'. exists ext.
  split; [|done].
  destruct (Kixie.filter_by_date to_datetime start_date end_date d) as [d'|e].
  - destruct Hr as (l & -> & Hl). unfold bind, deref, lift. cbn [heap].
    rewrite Hl. done.
  - rewrite Hr. done.
Qed.

End Callback_facts.

(** ** No data *)

(** C6: when the table behind [df] has no rows, the callback returns its
    defaults and does not raise: "0" calls, "0" connections, the rate
    "0%", the talk time "0m", empty figures and no table.  The
    aggregations themselves give the same on such a table: its length is
    0, no row matches, the rate is "0%", the talk time is "0m", every
    grouped count is empty. *)
Theorem empty_table_defaults (to_datetime : value -> option Z)
    (db : option (result (list (string * gmap string value))))
    (apply_clicks : Z) (start_date end_date : option string)
    (refresh_clicks auto_refresh : Z) (s : store) (d : DataFrame) :
  let mid := Kixie.after_refresh to_datetime db refresh_clicks auto_refresh s in
  heap mid !! df mid = Some d ->
  rows d = [] ->
  fst (Kixie.update_dashboard to_datetime db apply_clicks start_date end_date
         refresh_clicks auto_refresh s) = Ok Kixie.no_data
  /\ len d = 0%nat
  /\ Kixie.connection_rate 0 (Z.of_nat (len d)) = Ok "0%"
  /\ Kixie.talk_time 0 = "0m"
  /\ (forall c labels top_n,
        has_column c d = true ->
        count_matching d c labels = Ok 0%nat
        /\ (s <-r col d c; sum_values s) = Ok 0
        /\ group_counts d c top_n = Ok [])
  /\ Kixie.view (DataFrame_columns Kixie.default_columns) = Ok empty_view.
Proof.
  intros mid Hd Hrows.
  destruct (update_dashboard_run to_datetime db apply_clicks start_date
              end_date refresh_clicks auto_refresh s) as (ext & Hrun & _).
  fold mid in Hrun. rewrite Hrun. cbn [fst]. rewrite Hd.
  unfold Kixie.recompute, empty, len. rewrite Hrows. cbn [length Nat.eqb orb].
  repeat split; try reflexivity.
  - unfold count_matching, len, select.
    rewrite (col_present d c) by assumption.
    cbn [rbind rows]. rewrite Hrows. reflexivity.
  - rewrite (col_present d c) by assumption. rewrite Hrows. reflexivity.
  - unfold group_counts. rewrite (col_present d c) by assumption.
    rewrite Hrows. by destruct top_n as [[|n]|].
Qed.

Lemma empty_table_defaults_witness :
  heap (Kixie.initial_store simple_to_datetime None) !! 0%nat
  = Some (DataFrame_columns Kixie.default_columns)
  /\ fst (Kixie.update_dashboard simple_to_datetime None 0
            (Some "86400") (Some "172800") 0 0
            (Kixie.initial_store simple_to_datetime None))
     = Ok Kixie.no_data.
Proof.
  split; [reflexivity|].
  apply (empty_table_defaults simple_to_datetime None 0
           (Some "86400") (Some "172800") 0 0
           (Kixie.initial_store simple_to_datetime None)
           (DataFrame_columns Kixie.default_columns));
    reflexivity.
Defined.

(** A re-fetch that brings nothing (no client, a failed request, an empty
    collection) leaves a table without rows behind [df]. *)
Lemma refreshed_no_documents (to_datetime : value -> option Z)
    (db : option (result (list (string * gmap string value)))) :
  rows (Kixie.fetch_calls db) = [] ->
  rows (Kixie.refreshed to_datetime db) = [].
Proof.
  intros H. unfold Kixie.refreshed, empty, len. rewrite H.
  cbn [length Nat.eqb orb negb]. by rewrite andb_false_r.
Qed.

(** ** The stored dataset *)

(** C10: a run of the callback that does not re-fetch leaves the name
    [df] bound to the same table object and that object as it was,
    whatever the date range; a later run, with any range, computes from
    the full table what it would have computed before. *)
Theorem date_filter_keeps_dataset (to_datetime : value -> option Z)
    (db : option (result (list (string * gmap string value))))
    (apply_clicks : Z) (start_date end_date : option string)
    (refresh_clicks auto_refresh : Z) (s : store) :
  refresh_clicks <= 0 -> auto_refresh <= 0 ->
  let s' := snd (Kixie.update_dashboard to_datetime db apply_clicks
                   start_date end_date refresh_clicks auto_refresh s) in
  df s' = df s
  /\ heap s' !! df s = heap s !! df s
  /\ forall db' apply_clicks' start_date' end_date',
       fst (Kixie.update_dashboard to_datetime db' apply_clicks'
              start_date' end_date' refresh_clicks auto_refresh s')
       = Kixie.recompute to_datetime start_date' end_date' (heap s !! df s).
Proof.
  intros Hr Ha s'.
  assert (Hmid : forall db0 s0,
            Kixie.after_refresh to_datetime db0 refresh_clicks auto_refresh s0 = s0).
  { intros db0 s0. unfold Kixie.after_refresh.
    destruct (Z.gtb_spec refresh_clicks 0), (Z.gtb_spec auto_refresh 0);
      try lia; reflexivity. }
  destruct (update_dashboard_run to_datetime db apply_clicks start_date
              end_date refresh_clicks auto_refresh s) as (ext & Hrun & Hext).
  rewrite Hmid in Hrun, Hext.
  assert (Hs' : s' = {| heap := heap s ++ ext; df := df s |}).
  { unfold s'. by rewrite Hrun. }
  assert (Hlook : heap s' !! df s = heap s !! df s).
  { rewrite Hs'. cbn [heap].
    destruct (heap s !! df s) as [d|] eqn:Hd.
    - by apply lookup_app_l_Some.
    - rewrite (Hext eq_refl). by rewrite app_nil_r. }
  split; [by rewrite Hs'|]. split; [exact Hlook|].
  intros db' apply_clicks' start_date' end_date'.
  destruct (update_dashboard_run to_datetime db' apply_clicks' start_date'
              end_date' refresh_clicks auto_refresh s') as (ext' & Hrun' & _).
  rewrite Hmid in Hrun'. rewrite Hrun'. cbn [fst].
  f_equal. rewrite <- Hlook. by rewrite Hs'.
Qed.

Lemma date_filter_keeps_dataset_witness :
  df (snd (Kixie.update_dashboard simple_to_datetime None 0
             (Some "86400") (Some "172800") 0 0 dated_store))
  = df dated_store
  /\ heap (snd (Kixie.update_dashboard simple_to_datetime None 0
                  (Some "86400") (Some "172800") 0 0 dated_store))
       !! df dated_store
     = Some dated_frame
  /\ length (heap (snd (Kixie.update_dashboard simple_to_datetime None 0
                          (Some "86400") (Some "172800") 0 0 dated_store)))
     = 4%nat.
Proof.
  destruct (date_filter_keeps_dataset simple_to_datetime None 0
              (Some "86400") (Some "172800") 0 0 dated_store
              ltac:(lia) ltac:(lia))
    as (H1 & H2 & _).
  split; [exact H1|]. split; [etransitivity; [exact H2|reflexivity]|].
  vm_compute. reflexivity.
Defined.

(** ** The agent table *)

Lemma traverse_Forall2 {A B} (f : A -> result B) (l : list A) (l' : list B) :
  Kixie.traverse f l = Ok l' -> Forall2 (fun x y => f x = Ok y) l l'.
Proof.
  revert l'. induction l as [|x l IH]; intros l'; simpl.
  - intros [= <-]. constructor.
  - destruct (f x) as [y|e] eqn:Hy; simpl; [|done].
    destruct (Kixie.traverse f l) as [ys|e]; simpl; [|done].
    intros [= <-]. constructor; [done|]. by apply IH.
Qed.

Lemma select_rows_Forall {A} (P : A -> Prop) (l : list A) (m : list bool) :
  Forall P l -> Forall P (select_rows l m).
Proof.
  intros H. revert m. induction H as [|x l Hx Hl IH]; intros [|[] m]; simpl;
    try constructor; try done; apply IH.
Qed.

Lemma distinct_In (s : list value) (v : value) : In v (distinct s) -> In v s.
Proof.
  induction s as [|w s IH]; simpl; [done|].
  intros [->|H]; [by left|]. right. apply IH.
  apply filter_In in H. tauto.
Qed.

Lemma cell_insert_ne (r : gmap string value) (c c' : string) (v : value) :
  c ≠ c' -> cell (<[c := v]> r) c' = cell r c'.
Proof. intros H. unfold cell. by rewrite lookup_insert_ne. Qed.

Lemma set_column_ids (c : string) (f : gmap string value -> value)
    (d : DataFrame) :
  c ≠ "id" -> ids_present d -> ids_present (set_column c f d).
Proof.
  intros Hc H. unfold ids_present, set_column. cbn [rows].
  apply Forall_fmap. eapply Forall_impl; [exact H|].
  intros r Hr. simpl. by rewrite cell_insert_ne.
Qed.

Section Agent_table_facts.
Variable to_datetime : value -> option Z.

Lemma fetch_calls_ids (db : option (result (list (string * gmap string value)))) :
  ids_present (Kixie.fetch_calls db).
Proof.
  unfold ids_present. destruct db as [[docs|e]|]; cbn [Kixie.fetch_calls DataFrame_of rows];
    try constructor.
  apply Forall_fmap, Forall_forall. intros [i data] _. simpl.
  unfold cell. by rewrite lookup_insert_eq.
Qed.

Lemma process_dates_ids (d : DataFrame) :
  ids_present d -> ids_present (Kixie.process_dates to_datetime d).
Proof.
  intros H. unfold Kixie.process_dates.
  apply set_column_ids; [done|]. by apply set_column_ids.
Qed.

Lemma refreshed_ids (db : option (result (list (string * gmap string value)))) :
  ids_present (Kixie.refreshed to_datetime db).
Proof.
  unfold Kixie.refreshed.
  destruct (_ && _); [apply process_dates_ids|]; apply fetch_calls_ids.
Qed.

Lemma module_init_ids (db : option (result (list (string * gmap string value)))) :
  ids_present (Kixie.module_init to_datetime db).
Proof.
  unfold Kixie.module_init.
  set (d := if empty (Kixie.fetch_calls db) then _ else _).
  assert (Hd : ids_present d).
  { unfold d. destruct (empty _); [constructor|apply fetch_calls_ids]. }
  destruct (_ && _); [by apply process_dates_ids|].
  destruct (negb _); [by apply set_column_ids|done].
Qed.

Lemma filter_by_date_ids (start_date end_date : option string)
    (d d' : DataFrame) :
  Kixie.filter_by_date to_datetime start_date end_date d = Ok d' ->
  ids_present d -> ids_present d'.
Proof.
  unfold Kixie.filter_by_date. intros H Hd. revert H.
  destruct (_ && _); [|by intros [= <-]].
  destruct (Kixie.parse_day _ _); cbn [rbind]; [|done].
  destruct (Kixie.parse_day _ _); cbn [rbind]; [|done].
  destruct (has_column "date" d); [|by intros [= <-]].
  destruct (col d "date"); cbn [rbind]; [|done].
  destruct (col _ "date"); cbn [rbind]; [|done].
  destruct (mask _ _); cbn [rbind]; [|done].
  intros [= <-]. unfold ids_present, select. cbn [rows].
  by do 2 apply select_rows_Forall.
Qed.

(** In every state the program can reach, the table behind [df] has
    its ids. *)
Lemma reachable_ids (s : store) (d : DataFrame) :
  Kixie.reachable to_datetime s -> heap s !! df s = Some d -> ids_present d.
Proof.
  intros Hs. revert d.
  induction Hs as [db|db a sd ed rc ar s Hs IH]; intros d.
  - cbn. intros [= <-]. apply module_init_ids.
  - destruct (update_dashboard_run to_datetime db a sd ed rc ar s)
      as (ext & -> & Hext).
    cbn [snd heap df].
    set (mid := Kixie.after_refresh to_datetime db rc ar s) in *.
    assert (Hmid : forall d0, heap mid !! df mid = Some d0 -> ids_present d0).
    { unfold mid, Kixie.after_refresh.
      destruct ((rc >? 0) || (ar >? 0)); [|exact IH].
      cbn [heap df]. intros d0. rewrite lookup_snoc.
      intros [= <-]. apply refreshed_ids. }
    destruct (heap mid !! df mid) as [d0|] eqn:Hd0.
    + rewrite (lookup_app_l_Some _ _ _ _ Hd0). intros [= <-]. by apply Hmid.
    + rewrite (Hext eq_refl), app_nil_r, Hd0. done.
Qed.

End Agent_table_facts.

Lemma count_ids_all (rs : list (gmap string value)) :
  Forall (fun r => notna (cell r "id") = true) rs ->
  length (List.filter notna ((fun r => cell r "id") <$> rs)) = length rs.
Proof.
  induction 1 as [|r rs Hr Hrs IH]; csimpl; [done|].
  rewrite Hr. csimpl. by rewrite IH.
Qed.

(** A group of [groupby] has at least one row, and its rows are rows of
    the table. *)
Lemma groupby_groups (d : DataFrame) (c : string)
    (groups : list (value * list (gmap string value))) :
  groupby d c = Ok groups ->
  Forall (fun g => snd g <> [] /\ Forall (fun r => In r (rows d)) (snd g)) groups.
Proof.
  unfold groupby, col. destruct (has_column c d); cbn [rbind]; [|done].
  intros [= <-]. apply Forall_fmap, Forall_forall. intros k Hk.
  unfold compose. cbn [snd].
  rewrite (isort_Permutation value_leb) in Hk.
  apply list_elem_of_In, distinct_In, filter_In in Hk. destruct Hk as [Hk _].
  apply list_elem_of_In, list_elem_of_fmap in Hk. destruct Hk as (r & -> & Hr).
  apply list_elem_of_In in Hr. split.
  - intros Hnil.
    assert (Hin : In r (List.filter
                          (fun r0 => bool_decide (cell r0 c = cell r c)) (rows d))).
    { apply filter_In. split; [done|]. by apply bool_decide_eq_true. }
    rewrite Hnil in Hin. destruct Hin.
  - apply Forall_forall. intros r' Hr'.
    apply list_elem_of_In, filter_In in Hr'. tauto.
Qed.

Lemma agent_stats_calls (d : DataFrame) (body : list Kixie.agent_row) :
  ids_present d ->
  Kixie.agent_stats d = Ok body ->
  Forall row_has_calls body.
Proof.
  intros Hids. unfold Kixie.agent_stats, Kixie.agent_agg.
  destruct (groupby d "agent") as [groups|e] eqn:Hg; cbn [rbind]; [|done].
  destruct (col d "id"); cbn [rbind]; [|done].
  destruct (col d "outcome"); cbn [rbind]; [|done].
  destruct (col d "duration"); cbn [rbind]; [|done].
  destruct (Kixie.traverse Kixie.aggregate groups) as [agg|e] eqn:Ha;
    cbn [rbind]; [|done].
  destruct (Kixie.traverse Kixie.derive agg) as [stats|e] eqn:Hs;
    cbn [rbind]; [|done].
  intros [= <-]. rewrite (isort_Permutation Kixie.more_connections).
  apply traverse_Forall2 in Ha, Hs. apply groupby_groups in Hg.
  eapply Forall2_Forall_r; [exact Hs|].
  eapply Forall2_Forall_r; [exact Ha|].
  eapply Forall_impl; [exact Hg|].
  intros [k rs] [Hne Hin] [[[agent calls] conns] dur] Hagg r Hder.
  cbn [snd] in Hne, Hin.
  unfold Kixie.aggregate in Hagg.
  destruct (sum_values _) as [t|e]; cbn [rbind] in Hagg; [|done].
  injection Hagg as <- <- <- <-.
  rewrite count_ids_all in Hder.
  2:{ eapply Forall_impl; [exact Hin|]. intros r' Hr'.
      unfold ids_present in Hids. rewrite Forall_forall in Hids.
      apply Hids. by apply list_elem_of_In. }
  assert (Hlen : (1 <= length rs)%nat) by (destruct rs; [done|simpl; lia]).
  unfold Kixie.derive, Kixie.agent_connection_pct in Hder.
  assert (Hguard : (Z.of_nat (length rs) >? 0) = true)
    by (apply Z.gtb_lt; lia).
  rewrite Hguard in Hder.
  destruct (percent_1f _ _) as [pct|e] eqn:Hp; cbn [rbind] in Hder; [|done].
  injection Hder as <-. unfold row_has_calls, Kixie.agent_connection_pct.
  cbn [Kixie.Total_Calls Kixie.Connections Kixie.Connection_pct].
  by rewrite Hguard.
Qed.

Lemma view_agent_table (d : DataFrame) (out : Kixie.outputs) :
  Kixie.view d = Ok out ->
  exists stats,
    Kixie.agent_stats d = Ok stats /\ Kixie.out_agent_table out = Kixie.Table stats.
Proof.
  unfold Kixie.view.
  destruct (count_matching _ _ _); cbn [rbind]; [|done].
  destruct (Kixie.connection_rate _ _); cbn [rbind]; [|done].
  destruct (if has_column "duration" d then _ else _); cbn [rbind]; [|done].
  destruct (group_counts d "outcome" None); cbn [rbind]; [|done].
  destruct (group_counts d "agent" _); cbn [rbind]; [|done].
  destruct (Kixie.agent_stats d) as [stats|e]; cbn [rbind]; [|done].
  intros [= <-]. by exists stats.
Qed.

(** C9: in every state the program can reach, every row of the agent
    table the callback returns counts at least one call; the guard of its
    [Connection %] holds, so the column is the formatted quotient and
    never the "0%" of the other branch. *)
Theorem agent_groups_have_calls (to_datetime : value -> option Z)
    (db : option (result (list (string * gmap string value))))
    (apply_clicks : Z) (start_date end_date : option string)
    (refresh_clicks auto_refresh : Z) (s : store)
    (out : Kixie.outputs) (body : list Kixie.agent_row) :
  Kixie.reachable to_datetime s ->
  fst (Kixie.update_dashboard to_datetime db apply_clicks start_date end_date
         refresh_clicks auto_refresh s) = Ok out ->
  Kixie.out_agent_table out = Kixie.Table body ->
  Forall row_has_calls body.
Proof.
  intros Hs Hout Hbody.
  destruct (update_dashboard_run to_datetime db apply_clicks start_date
              end_date refresh_clicks auto_refresh s) as (ext & Hrun & _).
  rewrite Hrun in Hout. cbn [fst] in Hout.
  set (mid := Kixie.after_refresh to_datetime db refresh_clicks auto_refresh s) in *.
  assert (Hmid : forall d0, heap mid !! df mid = Some d0 -> ids_present d0).
  { unfold mid, Kixie.after_refresh.
    destruct ((refresh_clicks >? 0) || (auto_refresh >? 0)).
    - cbn [heap df]. intros d0. rewrite lookup_snoc.
      intros [= <-]. apply refreshed_ids.
    - intros d0. by apply (reachable_ids to_datetime). }
  unfold Kixie.recompute in Hout.
  destruct (heap mid !! df mid) as [d|]; [|done].
  specialize (Hmid d eq_refl).
  destruct (empty d).
  { injection Hout as <-. discriminate Hbody. }
  destruct (Kixie.filter_by_date to_datetime start_date end_date d)
    as [fd|e] eqn:Hf; cbn [rbind] in Hout; [|done].
  apply view_agent_table in Hout. destruct Hout as (stats & Hstats & Htable).
  rewrite Htable in Hbody. injection Hbody as <-.
  eapply agent_stats_calls; [|exact Hstats].
  exact (filter_by_date_ids to_datetime _ _ _ _ Hf Hmid).
Qed.

Lemma agent_groups_have_calls_witness :
  Forall row_has_calls
    [ {| Kixie.Agent := Str "A"; Kixie.Total_Calls := 1; Kixie.Connections := 1;
         Kixie.Total_Duration := 120; Kixie.Connection_pct := "100.0%";
         Kixie.Talk_Time := "2m" |} ].
Proof.
  eapply (agent_groups_have_calls simple_to_datetime None 0
            (Some "86400") (Some "172800") 0 0 dated_store).
  - apply Kixie.reachable_init.
  - vm_compute. reflexivity.
  - reflexivity.
Defined.

(** * Further properties of the code *)

(** ** Loading the documents *)

Lemma elem_of_List_filter {A} (f : A -> bool) (l : list A) (x : A) :
  x ∈ List.filter f l <-> x ∈ l /\ f x = true.
Proof. rewrite !list_elem_of_In. apply filter_In. Qed.

Lemma add_keys_elem (cols : list string) (r : gmap string value) (c : string) :
  c ∈ add_keys cols r <-> c ∈ cols \/ is_Some (r !! c).
Proof.
  unfold add_keys. rewrite elem_of_app, elem_of_List_filter, list_elem_of_fmap.
  split.
  - intros [H|[(p & -> & Hp) _]]; [by left|right].
    destruct p as [k v]. apply elem_of_map_to_list in Hp. by exists v.
  - intros [H|[v Hv]]; [by left|].
    destruct (decide (c ∈ cols)) as [Hc|Hc]; [by left|right]. split.
    + exists (c, v). split; [done|]. by apply elem_of_map_to_list.
    + by rewrite bool_decide_eq_false_2.
Qed.

Lemma add_keys_NoDup (cols : list string) (r : gmap string value) :
  NoDup cols -> NoDup (add_keys cols r).
Proof.
  intros H. unfold add_keys. apply NoDup_app. split; [done|]. split.
  - intros c Hc Hin. apply elem_of_List_filter in Hin.
    destruct Hin as [_ Hn]. by rewrite bool_decide_eq_true_2 in Hn.
  - apply NoDup_ListNoDup, List.NoDup_filter, NoDup_ListNoDup.
    apply NoDup_fst_map_to_list.
Qed.

Lemma foldl_add_keys_elem (recs : list (gmap string value)) (acc : list string)
    (c : string) :
  c ∈ foldl add_keys acc recs
  <-> c ∈ acc \/ exists r, r ∈ recs /\ is_Some (r !! c).
Proof.
  revert acc. induction recs as [|r recs IH]; intros acc; simpl.
  - split; [by left|]. intros [H|(r & Hr & _)]; [done|]. by apply elem_of_nil in Hr.
  - rewrite IH, add_keys_elem. split.
    + intros [[H|H]|(r' & Hr' & H)]; [by left| |].
      * right. exists r. split; [by left|done].
      * right. exists r'. split; [by right|done].
    + intros [H|(r' & Hr' & H)]; [by left; left|].
      apply elem_of_cons in Hr'. destruct Hr' as [->|Hr'].
      * by left; right.
      * right. by exists r'.
Qed.

Lemma foldl_add_keys_NoDup (recs : list (gmap string value)) (acc : list string) :
  NoDup acc -> NoDup (foldl add_keys acc recs).
Proof.
  revert acc. induction recs as [|r recs IH]; intros acc H; simpl; [done|].
  by apply IH, add_keys_NoDup.
Qed.

(** The columns of a table built from records are the fields seen in
    some record, each once. *)
Lemma DataFrame_of_columns (recs : list (gmap string value)) (c : string) :
  has_column c (DataFrame_of recs) = true
  <-> exists r, r ∈ recs /\ is_Some (r !! c).
Proof.
  unfold has_column, DataFrame_of. cbn [columns].
  rewrite bool_decide_eq_true, foldl_add_keys_elem.
  split; [|by right]. intros [H|H]; [|done]. by apply elem_of_nil in H.
Qed.

(** X1: the table [fetch_calls] builds has one row per document, in the
    order of the documents; the [id] of a row is the id of its document,
    also when the document has a field of that name, and every other
    field is the document's.  Its columns are [id] and the fields seen in
    some document, each once.  Without a client, or when the request
    raises, the table has no rows and no columns. *)
Theorem fetch_calls_table (docs : list (string * gmap string value))
    (c : string) (e : exn) :
  c <> "id" ->
  len (Kixie.fetch_calls (Some (Ok docs))) = length docs
  /\ (fun r => cell r "id") <$> rows (Kixie.fetch_calls (Some (Ok docs)))
     = (fun doc => Str (fst doc)) <$> docs
  /\ (fun r => cell r c) <$> rows (Kixie.fetch_calls (Some (Ok docs)))
     = (fun doc => cell (snd doc) c) <$> docs
  /\ (has_column "id" (Kixie.fetch_calls (Some (Ok docs))) = true <-> docs <> [])
  /\ (has_column c (Kixie.fetch_calls (Some (Ok docs))) = true
      <-> exists doc, doc ∈ docs /\ is_Some (snd doc !! c))
  /\ NoDup (columns (Kixie.fetch_calls (Some (Ok docs))))
  /\ Kixie.fetch_calls None = mkDataFrame [] []
  /\ Kixie.fetch_calls (Some (Raise e)) = mkDataFrame [] [].
Proof.
  intros Hc. unfold Kixie.fetch_calls, len. cbn [DataFrame_of rows].
  split; [by rewrite length_fmap|].
  split.
  { rewrite <- list_fmap_compose. apply list_fmap_ext. intros i [k data] _.
    simpl. unfold cell. by rewrite lookup_insert_eq. }
  split.
  { rewrite <- list_fmap_compose. apply list_fmap_ext. intros i [k data] _.
    simpl. unfold cell. by rewrite lookup_insert_ne. }
  split.
  { rewrite DataFrame_of_columns. split.
    - intros (r & Hr & _) ->. by apply elem_of_nil in Hr.
    - intros Hd. destruct docs as [|[k data] docs]; [done|].
      eexists. split; [by left|]. simpl. by rewrite lookup_insert_eq. }
  split.
  { rewrite DataFrame_of_columns. split.
    - intros (r & Hr & Hs). apply list_elem_of_fmap in Hr.
      destruct Hr as (doc & -> & Hdoc). exists doc. split; [done|].
      simpl in Hs. by rewrite lookup_insert_ne in Hs.
    - intros (doc & Hdoc & Hs). exists (<["id" := Str doc.1]> doc.2).
      split; [|by rewrite lookup_insert_ne].
      apply list_elem_of_fmap. by exists doc. }
  split; [|done].
  apply foldl_add_keys_NoDup. constructor.
Qed.

Lemma fetch_calls_table_witness :
  "agent" <> "id"
  /\ (fun r => cell r "id") <$> rows (Kixie.fetch_calls (Some (Ok scenario_docs)))
     = [Str "c1"; Str "c2"; Str "c3"]
  /\ (fun r => cell r "agent") <$> rows (Kixie.fetch_calls (Some (Ok scenario_docs)))
     = [Str "A"; Str "A"; Str "B"].
Proof.
  split; [done|].
  destruct (fetch_calls_table scenario_docs "agent" TypeError ltac:(done))
    as (_ & H1 & H2 & _).
  split; [rewrite H1|rewrite H2]; vm_compute; reflexivity.
Defined.

(** ** Counting values *)

Lemma count_into_count (v w : value) (acc : list (value * nat)) :
  count_in (count_into v acc) w
  = if decide (v = w) then S (count_in acc w) else count_in acc w.
Proof.
  induction acc as [|[k n] acc IH]; simpl.
  - destruct (decide (v = w)); done.
  - destruct (decide (k = v)) as [->|Hk]; simpl.
    + destruct (decide (v = w)); done.
    + destruct (decide (k = w)) as [->|Hw]; [|done].
      by rewrite decide_False by done.
Qed.

Lemma count_into_keys (v : value) (acc : list (value * nat)) :
  fst <$> count_into v acc
  = if decide (v ∈ fst <$> acc) then fst <$> acc else ((fst <$> acc) ++ [v])%list.
Proof.
  induction acc as [|[k n] acc IH].
  - done.
  - cbn [count_into]. rewrite fmap_cons. cbn [fst].
    destruct (decide (k = v)) as [->|Hk].
    + clear IH. rewrite fmap_cons. cbn [fst].
      rewrite decide_True; [done|]. by left.
    + rewrite fmap_cons. cbn [fst]. rewrite IH. clear IH.
      destruct (decide (v ∈ fst <$> acc)) as [Hin|Hin].
      * rewrite decide_True; [done|]. by right.
      * rewrite decide_False; [done|]. intros H. apply elem_of_cons in H.
        destruct H; [congruence|done].
Qed.

Lemma count_into_NoDup (v : value) (acc : list (value * nat)) :
  NoDup (fst <$> acc) -> NoDup (fst <$> count_into v acc).
Proof.
  intros H. rewrite count_into_keys. destruct (decide _) as [Hin|Hin]; [done|].
  apply NoDup_app. split; [done|]. split; [|apply NoDup_singleton].
  intros x Hx Hv. apply list_elem_of_singleton in Hv. by subst.
Qed.

Lemma occurrences_cons (v w : value) (s : list value) :
  occurrences w (v :: s)
  = if decide (v = w) then S (occurrences w s) else occurrences w s.
Proof.
  unfold occurrences. simpl. destruct (decide (v = w)) as [->|H].
  - by rewrite bool_decide_eq_true_2.
  - by rewrite bool_decide_eq_false_2.
Qed.

Lemma tally_from (s : list value) (acc : list (value * nat)) :
  let t := foldl (fun acc v => if isnull v then acc else count_into v acc) acc s in
  (NoDup (fst <$> acc) -> NoDup (fst <$> t))
  /\ (forall w, w <> Null -> count_in t w = (count_in acc w + occurrences w s)%nat)
  /\ (forall w, w ∈ fst <$> t <-> w ∈ fst <$> acc \/ (w <> Null /\ w ∈ s)).
Proof.
  revert acc. induction s as [|v s IH]; intros acc; simpl.
  - split; [done|]. split.
    + intros w _. unfold occurrences. simpl. lia.
    + intros w. split; [by left|]. intros [H|[_ H]]; [done|].
      by apply elem_of_nil in H.
  - destruct (IH (if isnull v then acc else count_into v acc)) as (H1 & H2 & H3).
    split; [|split].
    + intros Hn. apply H1. destruct (isnull v); [done|]. by apply count_into_NoDup.
    + intros w Hw. rewrite H2 by done. rewrite occurrences_cons.
      destruct v; simpl; try (rewrite decide_False by congruence; done);
        rewrite count_into_count; destruct (decide _); lia.
    + intros w. rewrite H3. rewrite elem_of_cons.
      destruct v; simpl; try rewrite count_into_keys;
        try (destruct (decide (_ ∈ fst <$> acc)) as [Hin|Hin]);
        try rewrite elem_of_app, list_elem_of_singleton;
        split; intros H; destruct_or?; destruct_and?; subst; eauto;
        try (right; split; [done|]; eauto; fail);
        try (destruct_or?; subst; eauto; congruence).
Qed.

Lemma count_in_elem (acc : list (value * nat)) (v : value) (n : nat) :
  NoDup (fst <$> acc) ->
  (v, n) ∈ acc <-> v ∈ fst <$> acc /\ count_in acc v = n.
Proof.
  induction acc as [|[k m] acc IH]; csimpl; intros Hn.
  - split; [intros H|intros [H _]]; by apply elem_of_nil in H.
  - apply NoDup_cons in Hn. destruct Hn as [Hk Hn].
    rewrite !elem_of_cons, (IH Hn). destruct (decide (k = v)) as [->|Hkv].
    + split.
      * intros [[= <-]|[H _]]; [by split; [left|]|done].
      * intros [_ <-]. by left.
    + split.
      * intros [[= ? ?]|[H1 H2]]; [congruence|]. split; [by right|done].
      * intros [[?|H1] H2]; [congruence|]. by right.
Qed.

Lemma value_counts_entries_aux (s : list value) (v : value) (n : nat) :
  NoDup (fst <$> value_counts s)
  /\ ((v, n) ∈ value_counts s
      <-> v <> Null /\ v ∈ s /\ n = occurrences v s).
Proof.
  unfold value_counts.
  pose proof (isort_Permutation more_frequent (tally s)) as Hp.
  destruct (tally_from s []) as (H1 & H2 & H3). fold (tally s) in H1, H2, H3.
  assert (Hnd : NoDup (fst <$> tally s)) by (apply H1; constructor).
  split; [by rewrite Hp|].
  rewrite Hp, (count_in_elem _ _ _ Hnd), H3. split.
  - intros [[H|[Hv Hin]] Hc]; [by apply elem_of_nil in H|].
    rewrite H2 in Hc by done. simpl in Hc. done.
  - intros (Hv & Hin & ->). split; [by right|]. by rewrite H2.
Qed.

(** X2: [value_counts] has one entry per distinct value of the Series
    that is not missing, and the count of an entry is the number of times
    its value stands in the Series. *)
Theorem value_counts_entries (s : list value) (v : value) (n : nat) :
  NoDup (fst <$> value_counts s)
  /\ ((v, n) ∈ value_counts s
      <-> v <> Null /\ v ∈ s /\ n = occurrences v s).
Proof. apply value_counts_entries_aux. Qed.

Lemma occurrences_elem (v : value) (s : list value) :
  v ∈ s -> (1 <= occurrences v s)%nat.
Proof.
  induction 1 as [v s|v w s H IH]; rewrite occurrences_cons.
  - rewrite decide_True by done. lia.
  - destruct (decide _); lia.
Qed.

(** X3: a top-N is the first N entries of the full grouped counts, and
    no entry left out has a larger count than an entry kept. *)
Theorem group_counts_top_n (d : DataFrame) (c : string) (n : nat)
    (top all : list (value * nat)) :
  group_counts d c (Some n) = Ok top ->
  group_counts d c None = Ok all ->
  top = take n all
  /\ length top = Nat.min n (length all)
  /\ forall x y, x ∈ top -> y ∈ drop n all -> (snd y <= snd x)%nat.
Proof.
  unfold group_counts. destruct (col d c) as [s|e]; cbn [rbind]; [|done].
  intros [= <-] [= <-]. unfold head. split; [done|].
  split; [apply length_take|].
  intros x y Hx Hy.
  pose proof (value_counts_sorted s) as Hs.
  rewrite <- (take_drop n (value_counts s)) in Hs.
  exact (StronglySorted_app_1_elem_of _ _ _ _ _ Hs Hx Hy).
Qed.

Lemma group_counts_top_n_witness :
  exists top all,
    group_counts setters_frame "setter" (Some 1%nat) = Ok top
    /\ group_counts setters_frame "setter" None = Ok all
    /\ top = [(Str "bob", 2%nat)]
    /\ length all = 2%nat
    /\ top = take 1 all.
Proof.
  exists [(Str "bob", 2%nat)], [(Str "bob", 2%nat); (Str "ann", 1%nat)].
  assert (H1 : group_counts setters_frame "setter" (Some 1%nat)
               = Ok [(Str "bob", 2%nat)]) by (vm_compute; reflexivity).
  assert (H2 : group_counts setters_frame "setter" None
               = Ok [(Str "bob", 2%nat); (Str "ann", 1%nat)])
    by (vm_compute; reflexivity).
  split; [exact H1|]. split; [exact H2|]. split; [reflexivity|].
  split; [reflexivity|].
  exact (proj1 (group_counts_top_n setters_frame "setter" 1 _ _ H1 H2)).
Defined.

(** ** What the date filter keeps *)

Lemma select_rows_filter {A} (f : A -> bool) (l : list A) :
  select_rows l (f <$> l) = List.filter f l.
Proof.
  induction l as [|x l IH]; [done|].
  rewrite fmap_cons. cbn [select_rows List.filter]. by rewrite IH.
Qed.

Lemma mask_between_filter (start end_ : Z) (c : string)
    (l : list (gmap string value)) (m : list bool) :
  mask (Kixie.between start end_) ((fun r => cell r c) <$> l) = Ok m ->
  select_rows l m = List.filter (fun r => in_range start end_ (cell r c)) l.
Proof.
  revert m. induction l as [|r l IH]; intros m.
  - intros [= <-]. done.
  - rewrite fmap_cons. cbn [mask].
    destruct (Kixie.between start end_ (cell r c)) as [b|e] eqn:Hb;
      cbn [rbind]; [|done].
    destruct (mask _ _) as [m'|e]; cbn [rbind]; [|done].
    intros [= <-]. cbn [select_rows List.filter]. rewrite (IH m' eq_refl).
    destruct (cell r c); simpl in Hb; try done. by injection Hb as <-.
Qed.

Lemma filter_notna_in_range (start end_ : Z) (c : string)
    (l : list (gmap string value)) :
  List.filter (fun r => in_range start end_ (cell r c))
    (List.filter (fun r => notna (cell r c)) l)
  = List.filter (fun r => in_range start end_ (cell r c)) l.
Proof.
  induction l as [|r l IH]; [done|]. cbn [List.filter].
  destruct (cell r c) eqn:Hc; simpl; rewrite ?Hc; simpl; rewrite IH; done.
Qed.

Lemma filter_by_date_rows_aux (to_datetime : value -> option Z)
    (start_date end_date : option string) (start end_ : Z) (d d' : DataFrame) :
  Kixie.filter_by_date to_datetime start_date end_date d = Ok d' ->
  truthy start_date && truthy end_date = true ->
  has_column "date" d = true ->
  Kixie.parse_day to_datetime (default "" start_date) = Ok start ->
  Kixie.parse_day to_datetime (default "" end_date) = Ok end_ ->
  columns d' = columns d
  /\ rows d' = List.filter (fun r => in_range start end_ (cell r "date")) (rows d).
Proof.
  unfold Kixie.filter_by_date. intros H Ht Hc Hs He. revert H.
  rewrite Ht, Hs, He, Hc. cbn [rbind].
  rewrite (col_present d "date" Hc). cbn [rbind].
  set (d1 := select d _).
  assert (Hc1 : has_column "date" d1 = true) by exact Hc.
  rewrite (col_present d1 "date" Hc1). cbn [rbind].
  destruct (mask _ _) as [m|e] eqn:Hm; cbn [rbind]; [|done].
  intros [= <-]. split; [done|]. cbn [select rows].
  rewrite (mask_between_filter _ _ _ _ _ Hm).
  unfold d1. cbn [select rows]. rewrite <- list_fmap_compose.
  rewrite (select_rows_filter (notna ∘ (fun r => cell r "date"))).
  apply filter_notna_in_range.
Qed.

(** X4: when the date filter returns, it returns the columns of its
    input; with both bounds given and a [date] column in the table its
    rows are exactly the rows of the input whose date lies in the range,
    bounds included, in their order: a row with a missing date is
    dropped, a row with a date in the range is never lost. *)
Theorem filter_by_date_rows (to_datetime : value -> option Z)
    (start_date end_date : option string) (start end_ : Z) (d d' : DataFrame) :
  Kixie.filter_by_date to_datetime start_date end_date d = Ok d' ->
  truthy start_date && truthy end_date = true ->
  has_column "date" d = true ->
  Kixie.parse_day to_datetime (default "" start_date) = Ok start ->
  Kixie.parse_day to_datetime (default "" end_date) = Ok end_ ->
  columns d' = columns d
  /\ rows d' = List.filter (fun r => in_range start end_ (cell r "date")) (rows d).
Proof. apply filter_by_date_rows_aux. Qed.

Lemma filter_by_date_rows_witness :
  exists kept,
    Kixie.filter_by_date simple_to_datetime (Some "86400") (Some "172800")
      dated_frame = Ok kept
    /\ rows kept
       = List.filter (fun r => in_range 1 2 (cell r "date")) (rows dated_frame)
    /\ len kept = 1%nat.
Proof.
  destruct (Kixie.filter_by_date simple_to_datetime (Some "86400")
              (Some "172800") dated_frame) as [kept|e] eqn:H.
  - exists kept. split; [reflexivity|].
    destruct (filter_by_date_rows simple_to_datetime (Some "86400")
                (Some "172800") 1 2 dated_frame kept H)
      as [_ Hr]; try (vm_compute; reflexivity).
    split; [exact Hr|]. unfold len. rewrite Hr. vm_compute. reflexivity.
  - exfalso. revert H. vm_compute. discriminate.
Defined.

Lemma filter_by_date_shape (to_datetime : value -> option Z)
    (start_date end_date : option string) (d d' : DataFrame) :
  Kixie.filter_by_date to_datetime start_date end_date d = Ok d' ->
  d' = {| columns := columns d;
          rows := List.filter
                    (fun r => kept_by to_datetime start_date end_date
                                (has_column "date" d) (cell r "date"))
                    (rows d) |}.
Proof.
  intros H. unfold kept_by.
  destruct (truthy start_date && truthy end_date) eqn:Ht.
  2:{ unfold Kixie.filter_by_date in H. rewrite Ht in H. injection H as <-.
      cbn [andb]. destruct d as [cols rws]. cbn [columns rows]. f_equal.
      symmetry. apply forallb_filter_id. by apply forallb_forall. }
  destruct (has_column "date" d) eqn:Hc.
  2:{ unfold Kixie.filter_by_date in H. rewrite Ht, Hc in H.
      destruct (Kixie.parse_day _ _); cbn [rbind] in H; [|done].
      destruct (Kixie.parse_day _ _); cbn [rbind] in H; [|done].
      injection H as <-.
      cbn [andb]. destruct d as [cols rws]. cbn [columns rows]. f_equal.
      symmetry. apply forallb_filter_id. by apply forallb_forall. }
  cbn [andb].
  destruct (Kixie.parse_day to_datetime (default "" start_date))
    as [start|e] eqn:Hs.
  2:{ unfold Kixie.filter_by_date in H. by rewrite Ht, Hs in H. }
  destruct (Kixie.parse_day to_datetime (default "" end_date))
    as [end_|e] eqn:He.
  2:{ unfold Kixie.filter_by_date in H. by rewrite Ht, Hs, He in H. }
  destruct (filter_by_date_rows_aux _ _ _ _ _ _ _ H Ht Hc Hs He) as [H1 H2].
  destruct d' as [cols rws]. cbn [columns rows] in H1, H2. by subst.
Qed.

Lemma List_filter_comm {A} (f g : A -> bool) (l : list A) :
  List.filter f (List.filter g l) = List.filter g (List.filter f l).
Proof.
  induction l as [|x l IH]; [done|]. cbn [List.filter].
  destruct (f x) eqn:Hf, (g x) eqn:Hg; cbn [List.filter];
    rewrite ?Hf, ?Hg, IH; done.
Qed.

(** X5: two date ranges can be applied in either order: when all four
    filters return, filtering by one range and then by another gives the
    same table as filtering by them the other way round. *)
Theorem filter_by_date_commute (to_datetime : value -> option Z)
    (s1 e1 s2 e2 : option string) (d d1 d12 d2 d21 : DataFrame) :
  Kixie.filter_by_date to_datetime s1 e1 d = Ok d1 ->
  Kixie.filter_by_date to_datetime s2 e2 d1 = Ok d12 ->
  Kixie.filter_by_date to_datetime s2 e2 d = Ok d2 ->
  Kixie.filter_by_date to_datetime s1 e1 d2 = Ok d21 ->
  d12 = d21.
Proof.
  intros H1 H12 H2 H21.
  apply filter_by_date_shape in H1, H12, H2, H21.
  rewrite H12, H21, H1, H2. cbn [columns rows]. unfold has_column.
  cbn [columns]. f_equal. apply List_filter_comm.
Qed.

Lemma filter_by_date_commute_witness :
  exists d1 d2 d12,
    Kixie.filter_by_date simple_to_datetime (Some "86400") (Some "172800")
      dated_frame = Ok d1
    /\ Kixie.filter_by_date simple_to_datetime (Some "0") (Some "432000")
         dated_frame = Ok d2
    /\ Kixie.filter_by_date simple_to_datetime (Some "0") (Some "432000") d1
       = Ok d12
    /\ Kixie.filter_by_date simple_to_datetime (Some "86400") (Some "172800") d2
       = Ok d12
    /\ (len d1, len d2, len d12) = (1%nat, 2%nat, 1%nat).
Proof.
  destruct (Kixie.filter_by_date simple_to_datetime (Some "86400")
              (Some "172800") dated_frame) as [d1|e] eqn:H1;
    [|exfalso; revert H1; vm_compute; discriminate].
  destruct (Kixie.filter_by_date simple_to_datetime (Some "0")
              (Some "432000") dated_frame) as [d2|e] eqn:H2;
    [|exfalso; revert H2; vm_compute; discriminate].
  destruct (Kixie.filter_by_date simple_to_datetime (Some "0")
              (Some "432000") d1) as [d12|e] eqn:H12;
    [|exfalso; revert H1 H12; vm_compute; intros [= <-]; discriminate].
  destruct (Kixie.filter_by_date simple_to_datetime (Some "86400")
              (Some "172800") d2) as [d21|e] eqn:H21;
    [|exfalso; revert H2 H21; vm_compute; intros [= <-]; discriminate].
  exists d1, d2, d12. split; [reflexivity|]. split; [reflexivity|].
  split; [exact H12|]. split.
  - rewrite (filter_by_date_commute simple_to_datetime _ _ _ _ _ _ _ _ _
               H1 H12 H2 H21). exact H21.
  - revert H1 H2 H12. vm_compute. intros [= <-] [= <-] [= <-]. reflexivity.
Defined.

(** ** Re-fetching *)

Lemma refresh_replaces_dataset_aux (to_datetime : value -> option Z)
    (db : option (result (list (string * gmap string value))))
    (apply_clicks : Z) (start_date end_date : option string)
    (refresh_clicks auto_refresh : Z) (s : store) :
  0 < refresh_clicks \/ 0 < auto_refresh ->
  df (snd (Kixie.update_dashboard to_datetime db apply_clicks start_date
             end_date refresh_clicks auto_refresh s)) = length (heap s)
  /\ heap (snd (Kixie.update_dashboard to_datetime db apply_clicks start_date
                  end_date refresh_clicks auto_refresh s)) !! length (heap s)
     = Some (Kixie.refreshed to_datetime db)
  /\ (forall l d,
        heap s !! l = Some d ->
        heap (snd (Kixie.update_dashboard to_datetime db apply_clicks
                     start_date end_date refresh_clicks auto_refresh s)) !! l
        = Some d)
  /\ fst (Kixie.update_dashboard to_datetime db apply_clicks start_date
            end_date refresh_clicks auto_refresh s)
     = Kixie.recompute to_datetime start_date end_date
         (Some (Kixie.refreshed to_datetime db)).
Proof.
  intros Hr.
  destruct (update_dashboard_run to_datetime db apply_clicks start_date
              end_date refresh_clicks auto_refresh s) as (ext & -> & _).
  assert (Hmid : Kixie.after_refresh to_datetime db refresh_clicks auto_refresh s
                 = {| heap := heap s ++ [Kixie.refreshed to_datetime db];
                      df := length (heap s) |}).
  { unfold Kixie.after_refresh.
    destruct (Z.gtb_spec refresh_clicks 0), (Z.gtb_spec auto_refresh 0);
      try reflexivity; lia. }
  rewrite Hmid. cbn [fst snd heap df]. rewrite lookup_snoc.
  split; [done|]. split; [|split; [|done]].
  - apply lookup_app_l_Some, lookup_snoc.
  - intros l d Hl. by do 2 apply lookup_app_l_Some.
Qed.



(** X7: when a re-fetch brings nothing (there is no client, the request
    raises, or the collection is empty) the callback returns its "no
    data" outputs, and so does every later run that does not re-fetch:
    the rows loaded before are no longer behind [df]. *)
Theorem failed_refresh_shows_no_data (to_datetime : value -> option Z)
    (db db' : option (result (list (string * gmap string value))))
    (apply_clicks apply_clicks' : Z)
    (start_date end_date start_date' end_date' : option string)
    (refresh_clicks auto_refresh refresh_clicks' auto_refresh' : Z) (s : store) :
  0 < refresh_clicks \/ 0 < auto_refresh ->
  rows (Kixie.fetch_calls db) = [] ->
  refresh_clicks' <= 0 -> auto_refresh' <= 0 ->
  fst (Kixie.update_dashboard to_datetime db apply_clicks start_date end_date
         refresh_clicks auto_refresh s) = Ok Kixie.no_data
  /\ fst (Kixie.update_dashboard to_datetime db' apply_clicks' start_date'
            end_date' refresh_clicks' auto_refresh'
            (snd (Kixie.update_dashboard to_datetime db apply_clicks
                    start_date end_date refresh_clicks auto_refresh s)))
     = Ok Kixie.no_data.
Proof.
  intros Hr Hrows Hr' Ha'.
  destruct (refresh_replaces_dataset_aux to_datetime db apply_clicks start_date
              end_date refresh_clicks auto_refresh s Hr) as (H1 & H2 & _ & H4).
  assert (He : empty (Kixie.refreshed to_datetime db) = true).
  { unfold empty, len. by rewrite refreshed_no_documents. }
  split.
  - rewrite H4. unfold Kixie.recompute. by rewrite He.
  - set (s' := snd _) in *.
    destruct (update_dashboard_run to_datetime db' apply_clicks' start_date'
                end_date' refresh_clicks' auto_refresh' s') as (ext & -> & _).
    assert (Hmid : Kixie.after_refresh to_datetime db' refresh_clicks'
                     auto_refresh' s' = s').
    { unfold Kixie.after_refresh.
      destruct (Z.gtb_spec refresh_clicks' 0), (Z.gtb_spec auto_refresh' 0);
        try reflexivity; lia. }
    rewrite Hmid. cbn [fst]. rewrite H1, H2. unfold Kixie.recompute.
    by rewrite He.
Qed.

Lemma failed_refresh_shows_no_data_witness :
  fst (Kixie.update_dashboard simple_to_datetime None 0 None None 1 0
         dated_store) = Ok Kixie.no_data
  /\ fst (Kixie.update_dashboard simple_to_datetime (Some (Ok dated_docs))
            0 None None 0 0
            (snd (Kixie.update_dashboard simple_to_datetime None 0 None None
                    1 0 dated_store)))
     = Ok Kixie.no_data.
Proof.
  apply (failed_refresh_shows_no_data simple_to_datetime None
           (Some (Ok dated_docs)) 0 0 None None None None 1 0 0 0 dated_store);
    [left; lia|reflexivity|lia|lia].
Defined.

(** ** Which errors the callback raises *)

Lemma percent_1f_returns (n d : Z) : d <> 0 -> exists r, percent_1f n d = Ok r.
Proof.
  intros Hd. unfold percent_1f, true_div.
  destruct (Z.eqb_spec d 0); [done|]. by eexists.
Qed.

Lemma connection_rate_returns (n d : Z) :
  exists r, Kixie.connection_rate n d = Ok r.
Proof.
  unfold Kixie.connection_rate. destruct (Z.gtb_spec d 0); [|by eexists].
  apply percent_1f_returns. lia.
Qed.

Lemma agent_connection_pct_returns (n d : Z) :
  exists r, Kixie.agent_connection_pct n d = Ok r.
Proof. apply connection_rate_returns. Qed.

Lemma sum_values_summable (s : list value) :
  (exists t, sum_values s = Ok t) <-> Forall (fun v => summable v = true) s.
Proof.
  induction s as [|v s IH]; simpl.
  - split; [constructor|by eexists].
  - rewrite Forall_cons, <- IH. clear IH. destruct v as [|x|n|x|x]; simpl.
    + split; [by intros|by intros [_ ?]].
    + split; [by intros [y ?]|by intros [? _]].
    + destruct (sum_values s) as [y|e]; simpl.
      * split; [intros _; split; [done|by eexists]|by eexists].
      * split; [by intros [y ?]|by intros [_ [y ?]]].
    + split; [by intros [y ?]|by intros [? _]].
    + split; [by intros [y ?]|by intros [? _]].
Qed.

Lemma sum_values_raises (s : list value) (e : exn) :
  sum_values s = Raise e -> e = TypeError.
Proof.
  induction s as [|v s IH]; simpl; [done|].
  destruct v; try (by intros [= <-]); [done|].
  destruct (sum_values s); simpl; [done|]. intros [= <-]. by apply IH.
Qed.

Lemma traverse_returns {A B} (f : A -> result B) (l : list A) :
  Forall (fun x => exists y, f x = Ok y) l -> exists l', Kixie.traverse f l = Ok l'.
Proof.
  induction 1 as [|x l [y Hy] Hl [l' IH]]; simpl; [by eexists|].
  rewrite Hy, IH. simpl. by eexists.
Qed.

Lemma traverse_derive_returns (agg : list (value * nat * nat * Z)) :
  exists stats, Kixie.traverse Kixie.derive agg = Ok stats.
Proof.
  apply traverse_returns, Forall_forall. intros [[[a calls] conns] dur] _.
  unfold Kixie.derive.
  destruct (agent_connection_pct_returns (Z.of_nat conns) (Z.of_nat calls))
    as [pct ->].
  by eexists.
Qed.

Lemma traverse_aggregate_returns (d : DataFrame)
    (groups : list (value * list (gmap string value))) :
  Forall (fun r => summable (cell r "duration") = true) (rows d) ->
  groupby d "agent" = Ok groups ->
  exists agg, Kixie.traverse Kixie.aggregate groups = Ok agg.
Proof.
  intros Hs Hg. apply groupby_groups in Hg.
  apply traverse_returns. eapply Forall_impl; [exact Hg|].
  intros [k rs] [_ Hin]. cbn [snd] in Hin. unfold Kixie.aggregate.
  assert (Hrs : Forall (fun v => summable v = true)
                  ((fun r => cell r "duration") <$> rs)).
  { apply Forall_fmap. eapply Forall_impl; [exact Hin|]. intros r Hr.
    rewrite Forall_forall in Hs. apply Hs. by apply list_elem_of_In. }
  apply sum_values_summable in Hrs. destruct Hrs as [t ->]. by eexists.
Qed.

(** X8: the aggregation of the callback returns exactly when the
    filtered table has the columns [outcome], [agent], [id] and
    [duration] and every duration is a number or missing.  In
    particular, once those columns are there, an empty selection, rows
    without an agent and rows without an outcome are all handled. *)
Theorem view_returns_iff (fd : DataFrame) :
  (exists out, Kixie.view fd = Ok out)
  <-> has_column "outcome" fd = true
      /\ has_column "agent" fd = true
      /\ has_column "id" fd = true
      /\ has_column "duration" fd = true
      /\ Forall (fun r => summable (cell r "duration") = true) (rows fd).
Proof.
  unfold Kixie.view, count_matching, group_counts, Kixie.agent_stats,
    Kixie.agent_agg, groupby.
  destruct (connection_rate_returns
              (Z.of_nat (len (select fd (isin Kixie.connected_outcomes
                 <$> ((fun r => cell r "outcome") <$> rows fd)))))
              (Z.of_nat (len fd))) as [rate Hrate].
  split.
  - intros [out H]. revert H. unfold col.
    destruct (has_column "outcome" fd); cbn [rbind]; [|done].
    rewrite Hrate. cbn [rbind].
    destruct (has_column "duration" fd); cbn [rbind].
    2:{ destruct (has_column "agent" fd); cbn [rbind]; [|done].
        destruct (has_column "id" fd); cbn [rbind]; done. }
    destruct (sum_values _) as [t|e] eqn:Hsum; cbn [rbind]; [|done].
    destruct (has_column "agent" fd); cbn [rbind]; [|done].
    destruct (has_column "id" fd); cbn [rbind]; [|done].
    intros _. repeat split.
    assert (Hs : exists t, sum_values ((fun r => cell r "duration") <$> rows fd)
                           = Ok t) by by eexists.
    apply sum_values_summable in Hs. by apply Forall_fmap in Hs.
  - intros (H1 & H2 & H3 & H4 & Hs). unfold col. rewrite H1, H2, H3, H4.
    cbn [rbind]. rewrite Hrate. cbn [rbind].
    assert (Hs' : Forall (fun v => summable v = true)
                    ((fun r => cell r "duration") <$> rows fd))
      by by apply Forall_fmap.
    apply sum_values_summable in Hs'. destruct Hs' as [t ->]. cbn [rbind].
    destruct (traverse_aggregate_returns fd _ Hs
                ltac:(unfold groupby; rewrite (col_present fd "agent" H2);
                      reflexivity)) as [agg ->].
    cbn [rbind].
    destruct (traverse_derive_returns agg) as [stats ->]. cbn [rbind].
    by eexists.
Qed.

Lemma view_errors_aux (fd : DataFrame) :
  (has_column "outcome" fd = false ->
   Kixie.view fd = Raise (KeyError "outcome"))
  /\ (has_column "outcome" fd = true -> has_column "agent" fd = true ->
      has_column "id" fd = true -> has_column "duration" fd = false ->
      Kixie.view fd = Raise (KeyError "duration"))
  /\ (forall e,
        Kixie.view fd = Raise e ->
        e = TypeError
        \/ exists c, c ∈ view_columns /\ has_column c fd = false
                     /\ e = KeyError c).
Proof.
  unfold Kixie.view, count_matching, group_counts, Kixie.agent_stats,
    Kixie.agent_agg, groupby.
  destruct (connection_rate_returns
              (Z.of_nat (len (select fd (isin Kixie.connected_outcomes
                 <$> ((fun r => cell r "outcome") <$> rows fd)))))
              (Z.of_nat (len fd))) as [rate Hrate].
  split; [|split].
  - intros H. unfold col. by rewrite H.
  - intros H1 H2 H3 H4. unfold col. rewrite H1, H2, H3, H4. cbn [rbind].
    rewrite Hrate. cbn [rbind]. done.
  - intros e. unfold col, view_columns.
    destruct (has_column "outcome" fd) eqn:H1; cbn [rbind].
    2:{ intros [= <-]. right. exists "outcome". set_solver. }
    rewrite Hrate. cbn [rbind].
    destruct (has_column "duration" fd) eqn:H4; cbn [rbind].
    + destruct (sum_values _) as [t|e'] eqn:Hsum; cbn [rbind].
      2:{ intros [= <-]. left. by eapply sum_values_raises. }
      destruct (has_column "agent" fd) eqn:H2; cbn [rbind].
      2:{ intros [= <-]. right. exists "agent". set_solver. }
      destruct (has_column "id" fd) eqn:H3; cbn [rbind].
      2:{ intros [= <-]. right. exists "id". set_solver. }
      assert (Hs : Forall (fun r => summable (cell r "duration") = true) (rows fd)).
      { assert (Hs : exists t, sum_values ((fun r => cell r "duration")
                                  <$> rows fd) = Ok t) by by eexists.
        apply sum_values_summable in Hs. by apply Forall_fmap in Hs. }
      destruct (traverse_aggregate_returns fd _ Hs
                  ltac:(unfold groupby; rewrite (col_present fd "agent" H2);
                        reflexivity)) as [agg ->].
      cbn [rbind].
      destruct (traverse_derive_returns agg) as [stats ->]. cbn [rbind]. done.
    + destruct (has_column "agent" fd) eqn:H2; cbn [rbind].
      2:{ intros [= <-]. right. exists "agent". set_solver. }
      destruct (has_column "id" fd) eqn:H3; cbn [rbind].
      2:{ intros [= <-]. right. exists "id". set_solver. }
      intros [= <-]. right. exists "duration". set_solver.
Qed.

(** X9: the aggregation raises [KeyError] for a column it reads and the
    table lacks, and raises nothing but that and the [TypeError] of a
    duration that cannot be added.  A table without [outcome] raises for
    [outcome]; a table with [outcome], [agent] and [id] but without
    [duration] raises for [duration]: the test ['duration' in columns] of
    the talk-time KPI does not make the column optional, the agent table
    reads it without a test. *)
Theorem view_errors (fd : DataFrame) :
  (has_column "outcome" fd = false ->
   Kixie.view fd = Raise (KeyError "outcome"))
  /\ (has_column "outcome" fd = true -> has_column "agent" fd = true ->
      has_column "id" fd = true -> has_column "duration" fd = false ->
      Kixie.view fd = Raise (KeyError "duration"))
  /\ (forall e,
        Kixie.view fd = Raise e ->
        e = TypeError
        \/ exists c, c ∈ view_columns /\ has_column c fd = false
                     /\ e = KeyError c).
Proof. apply view_errors_aux. Qed.

Lemma view_errors_witness :
  has_column "duration" (Kixie.fetch_calls (Some (Ok untimed_docs))) = false
  /\ Kixie.view (Kixie.fetch_calls (Some (Ok untimed_docs)))
     = Raise (KeyError "duration")
  /\ fst (Kixie.update_dashboard simple_to_datetime (Some (Ok untimed_docs))
            0 None None 1 0 dated_store)
     = Raise (KeyError "duration").
Proof.
  split; [vm_compute; reflexivity|]. split.
  - apply (proj1 (proj2 (view_errors (Kixie.fetch_calls (Some (Ok untimed_docs))))));
      vm_compute; reflexivity.
  - vm_compute. reflexivity.
Defined.



Section Reachable_facts.
Variable to_datetime : value -> option Z.

(** In every state the program can reach, [df] is bound to a table. *)
Lemma reachable_bound (s : store) :
  Kixie.reachable to_datetime s -> is_Some (heap s !! df s).
Proof.
  induction 1 as [db|db a sd ed rc ar s Hs IH]; [by eexists|].
  destruct (update_dashboard_run to_datetime db a sd ed rc ar s)
    as (ext & -> & _).
  cbn [snd heap df]. unfold Kixie.after_refresh.
  destruct ((rc >? 0) || (ar >? 0)); cbn [heap df].
  - eexists. apply lookup_app_l_Some, lookup_snoc.
  - destruct IH as [d Hd]. exists d. by apply lookup_app_l_Some.
Qed.

(** What a run of the callback computes in a state the program can
    reach: the "no data" outputs, or the aggregation of a filtered table
    whose rows have their ids. *)
Lemma reachable_run
    (db : option (result (list (string * gmap string value))))
    (apply_clicks : Z) (start_date end_date : option string)
    (refresh_clicks auto_refresh : Z) (s : store) :
  Kixie.reachable to_datetime s ->
  exists d,
    ids_present d
    /\ fst (Kixie.update_dashboard to_datetime db apply_clicks start_date
              end_date refresh_clicks auto_refresh s)
       = Kixie.recompute to_datetime start_date end_date (Some d).
Proof.
  intros Hs.
  destruct (update_dashboard_run to_datetime db apply_clicks start_date
              end_date refresh_clicks auto_refresh s) as (ext & -> & _).
  cbn [fst]. unfold Kixie.after_refresh.
  destruct ((refresh_clicks >? 0) || (auto_refresh >? 0)); cbn [heap df].
  - rewrite lookup_snoc. eexists. split; [apply refreshed_ids|done].
  - destruct (reachable_bound s Hs) as [d Hd]. rewrite Hd. exists d.
    split; [|done]. by eapply reachable_ids.
Qed.

End Reachable_facts.



(** ** The agent table, row by row *)

Lemma distinct_spec (s : list value) :
  NoDup (distinct s) /\ forall v, v ∈ distinct s <-> v ∈ s.
Proof.
  induction s as [|w s [IH1 IH2]]; cbn [distinct].
  - split; [constructor|done].
  - split.
    + constructor.
      * rewrite elem_of_List_filter. intros [_ H].
        by rewrite bool_decide_eq_true_2 in H.
      * by apply NoDup_ListNoDup, List.NoDup_filter, NoDup_ListNoDup.
    + intros v. rewrite !elem_of_cons, elem_of_List_filter, IH2.
      destruct (decide (v = w)) as [->|Hv]; [by split; left|].
      rewrite bool_decide_eq_false_2 by done. simpl.
      split; [intros [?|[? _]]; [by left|by right]
             |intros [?|?]; [by left|by right]].
Qed.

Lemma List_filter_fmap {A B} (f : A -> B) (p : B -> bool) (l : list A) :
  List.filter p (f <$> l) = f <$> List.filter (fun x => p (f x)) l.
Proof.
  induction l as [|x l IH]; [done|].
  rewrite fmap_cons. cbn [List.filter]. destruct (p (f x)); by rewrite ?fmap_cons, IH.
Qed.

Lemma traverse_fmap {A B C} (f : A -> result B) (g : B -> C) (h : A -> C)
    (l : list A) (l' : list B) :
  Kixie.traverse f l = Ok l' ->
  (forall x y, f x = Ok y -> g y = h x) ->
  g <$> l' = h <$> l.
Proof.
  intros H Hf. apply traverse_Forall2 in H.
  induction H as [|x y l l' Hxy Hl IH]; [done|].
  rewrite !fmap_cons, IH. f_equal. by apply Hf.
Qed.

(** The keys of the groups: the agents of the table, each once. *)
Lemma agent_keys (d : DataFrame) (k : value) :
  let keys := isort value_leb
                (distinct (List.filter notna ((fun r => cell r "agent") <$> rows d))) in
  NoDup keys
  /\ (k ∈ keys <-> k <> Null /\ k ∈ (fun r => cell r "agent") <$> rows d).
Proof.
  intros keys. unfold keys. rewrite (isort_Permutation value_leb).
  destruct (distinct_spec
              (List.filter notna ((fun r => cell r "agent") <$> rows d)))
    as [H1 H2].
  split; [done|]. rewrite H2, elem_of_List_filter.
  destruct k; simpl; (split; intros [? ?]; [try done; by split..]).
Qed.

Lemma agent_stats_shape (d : DataFrame) (body : list Kixie.agent_row) :
  Kixie.agent_stats d = Ok body ->
  exists stats,
    body = isort Kixie.more_connections stats
    /\ Kixie.Agent <$> stats
       = isort value_leb
           (distinct (List.filter notna ((fun r => cell r "agent") <$> rows d)))
    /\ Forall (agent_row_for d) stats.
Proof.
  unfold Kixie.agent_stats, Kixie.agent_agg, groupby.
  destruct (col d "agent") as [s|e] eqn:Hs; cbn [rbind]; [|done].
  destruct (col d "id"); cbn [rbind]; [|done].
  destruct (col d "outcome"); cbn [rbind]; [|done].
  destruct (col d "duration"); cbn [rbind]; [|done].
  destruct (Kixie.traverse Kixie.aggregate _) as [agg|e] eqn:Ha;
    cbn [rbind]; [|done].
  destruct (Kixie.traverse Kixie.derive agg) as [stats|e] eqn:Hd;
    cbn [rbind]; [|done].
  intros [= <-]. exists stats. split; [done|].
  assert (Hs' : s = (fun r => cell r "agent") <$> rows d).
  { unfold col in Hs. destruct (has_column "agent" d); congruence. }
  subst s.
  pose proof (traverse_Forall2 _ _ _ Ha) as Ha2.
  pose proof (traverse_Forall2 _ _ _ Hd) as Hd2.
  split.
  - rewrite (traverse_fmap _ Kixie.Agent (fun t => fst (fst (fst t))) _ _ Hd).
    2:{ intros [[[ag calls] conns] dur] r H. unfold Kixie.derive in H.
        destruct (Kixie.agent_connection_pct _ _); cbn [rbind] in H; [|done].
        by injection H as <-. }
    rewrite (traverse_fmap _ (fun t => fst (fst (fst t))) fst _ _ Ha).
    2:{ intros [k rs] t H. unfold Kixie.aggregate in H.
        destruct (sum_values _); cbn [rbind] in H; [|done].
        by injection H as <-. }
    rewrite <- list_fmap_compose. apply list_fmap_id.
  - eapply Forall2_Forall_r; [exact Hd2|].
    eapply Forall2_Forall_r; [exact Ha2|].
    apply Forall_fmap, Forall_forall. intros k _ t Hagg r Hder.
    unfold compose, Kixie.aggregate in Hagg.
    destruct (sum_values _) as [dur|e] eqn:Hsum; cbn [rbind] in Hagg; [|done].
    injection Hagg as <-. unfold Kixie.derive in Hder.
    destruct (Kixie.agent_connection_pct _ _); cbn [rbind] in Hder; [|done].
    injection Hder as <-. unfold agent_row_for, agent_rows.
    cbn [Kixie.Agent Kixie.Total_Calls Kixie.Connections Kixie.Total_Duration
         Kixie.Talk_Time].
    rewrite !List_filter_fmap, !length_fmap. done.
Qed.

Lemma agent_table_rows_aux (d : DataFrame) (body : list Kixie.agent_row)
    (k : value) :
  Kixie.agent_stats d = Ok body ->
  NoDup (Kixie.Agent <$> body)
  /\ (k ∈ Kixie.Agent <$> body
      <-> k <> Null /\ k ∈ (fun r => cell r "agent") <$> rows d)
  /\ Forall (agent_row_for d) body
  /\ StronglySorted by_connections_desc body.
Proof.
  intros H. destruct (agent_stats_shape d body H) as (stats & -> & Hk & Hrows).
  pose proof (isort_Permutation Kixie.more_connections stats) as Hp.
  destruct (agent_keys d k) as [Hn Hin].
  split; [by rewrite Hp, Hk|]. split; [by rewrite Hp, Hk|].
  split; [by rewrite Hp|].
  eapply StronglySorted_weaken; [|apply isort_StronglySorted].
  - intros x y Hxy. unfold Kixie.more_connections in Hxy.
    unfold by_connections_desc. by apply Nat.leb_le.
  - intros x y. unfold Kixie.more_connections. rewrite !Nat.leb_le. lia.
  - intros x y z. unfold Kixie.more_connections. rewrite !Nat.leb_le. lia.
Qed.



(** ** The agent table and the totals *)

Lemma sum_list_with_zero {A} (l : list A) : sum_list_with (fun _ => 0%nat) l = 0%nat.
Proof. induction l as [|x l IH]; [done|]. simpl. by rewrite IH. Qed.

Lemma sum_list_with_plus {A} (f g : A -> nat) (l : list A) :
  sum_list_with (fun x => (f x + g x)%nat) l
  = (sum_list_with f l + sum_list_with g l)%nat.
Proof. induction l as [|x l IH]; [done|]. simpl. rewrite IH. lia. Qed.

Lemma sum_list_with_ext {A} (f g : A -> nat) (l : list A) :
  Forall (fun x => f x = g x) l -> sum_list_with f l = sum_list_with g l.
Proof. induction 1 as [|x l Hx Hl IH]; [done|]. simpl. by rewrite Hx, IH. Qed.

Lemma sum_list_with_fmap {A B} (f : B -> nat) (g : A -> B) (l : list A) :
  sum_list_with f (g <$> l) = sum_list_with (fun x => f (g x)) l.
Proof. induction l as [|x l IH]; [done|]. rewrite fmap_cons. simpl. by rewrite IH. Qed.

Lemma sum_indicator {K} `{EqDecision K} (x : K) (ks : list K) (n : nat) :
  NoDup ks ->
  sum_list_with (fun k => if bool_decide (x = k) then n else 0%nat) ks
  = if bool_decide (x ∈ ks) then n else 0%nat.
Proof.
  induction 1 as [|k ks Hk Hn IH]; [done|]. simpl. rewrite IH.
  destruct (decide (x = k)) as [->|Hx].
  - rewrite bool_decide_eq_true_2 by done.
    rewrite (bool_decide_eq_false_2 (k ∈ ks)) by done.
    rewrite bool_decide_eq_true_2 by (by left). lia.
  - rewrite bool_decide_eq_false_2 by done.
    destruct (decide (x ∈ ks)) as [Hin|Hin].
    + rewrite !bool_decide_eq_true_2; [done|by right|done].
    + rewrite !bool_decide_eq_false_2; [done| |done].
      intros H. apply elem_of_cons in H. by destruct H.
Qed.

(** The groups of distinct keys split the rows that have one of the
    keys. *)
Lemma groups_partition {A K} `{EqDecision K} (key : A -> K) (P : A -> bool)
    (ks : list K) (l : list A) :
  NoDup ks ->
  sum_list_with
    (fun k => length (List.filter P
                        (List.filter (fun r => bool_decide (key r = k)) l))) ks
  = length (List.filter (fun r => P r && bool_decide (key r ∈ ks)) l).
Proof.
  intros Hn. induction l as [|r l IH]; cbn [List.filter length].
  - apply sum_list_with_zero.
  - rewrite (sum_list_with_ext _
               (fun k => ((if bool_decide (key r = k)
                           then (if P r then 1 else 0) else 0)
                          + length (List.filter P
                              (List.filter (fun r => bool_decide (key r = k)) l)))%nat)).
    2:{ apply Forall_forall. intros k _.
        destruct (bool_decide (key r = k)); cbn [List.filter]; [|done].
        by destruct (P r). }
    rewrite sum_list_with_plus, IH, (sum_indicator _ _ _ Hn).
    destruct (P r), (bool_decide (key r ∈ ks)); simpl; lia.
Qed.

Lemma agent_in_keys (d : DataFrame) (r : gmap string value) :
  r ∈ rows d ->
  bool_decide
    (cell r "agent"
     ∈ isort value_leb
         (distinct (List.filter notna ((fun r => cell r "agent") <$> rows d))))
  = notna (cell r "agent").
Proof.
  intros Hr. destruct (agent_keys d (cell r "agent")) as [_ Hk].
  destruct (notna (cell r "agent")) eqn:Hn.
  - apply bool_decide_eq_true_2, Hk. split.
    + intros H. by rewrite H in Hn.
    + apply list_elem_of_fmap. by exists r.
  - apply bool_decide_eq_false_2. intros H. apply Hk in H.
    destruct H as [H _]. by destruct (cell r "agent").
Qed.

(** X12: the Total Calls of the agent table add up to the number of rows
    of the filtered table that have an agent and an id, and its
    Connections to the number of rows that have an agent and a connected
    outcome: no call is counted for two agents, and the calls the table
    leaves out are those without an agent.  So the Connections of the
    table never add up to more than the Connections KPI. *)
Theorem agent_table_totals (d : DataFrame) (body : list Kixie.agent_row)
    (connections : nat) :
  Kixie.agent_stats d = Ok body ->
  count_matching d "outcome" Kixie.connected_outcomes = Ok connections ->
  sum_list_with Kixie.Total_Calls body
  = length (List.filter
              (fun r => notna (cell r "id") && notna (cell r "agent")) (rows d))
  /\ sum_list_with Kixie.Connections body
     = length (List.filter
                 (fun r => isin Kixie.connected_outcomes (cell r "outcome")
                           && notna (cell r "agent")) (rows d))
  /\ (sum_list_with Kixie.Connections body <= connections)%nat
  /\ (sum_list_with Kixie.Total_Calls body <= len d)%nat.
Proof.
  intros H Hc. destruct (agent_stats_shape d body H) as (stats & -> & Hk & Hrows).
  pose proof (isort_Permutation Kixie.more_connections stats) as Hp.
  destruct (agent_keys d Null) as [Hn _].
  assert (H1 : sum_list_with Kixie.Total_Calls
                 (isort Kixie.more_connections stats)
               = length (List.filter
                   (fun r => notna (cell r "id") && notna (cell r "agent"))
                   (rows d))).
  { rewrite Hp.
    rewrite (sum_list_with_ext _
               (fun r => length (List.filter (fun x => notna (cell x "id"))
                                   (agent_rows d (Kixie.Agent r))))).
    2:{ eapply Forall_impl; [exact Hrows|]. by intros r (-> & _). }
    rewrite <- (sum_list_with_fmap
                  (fun k => length (List.filter (fun x => notna (cell x "id"))
                                      (agent_rows d k))) Kixie.Agent).
    rewrite Hk. unfold agent_rows. rewrite (groups_partition _ _ _ _ Hn).
    f_equal. apply List.filter_ext_in. intros r Hr.
    by rewrite agent_in_keys by by apply list_elem_of_In. }
  assert (H2 : sum_list_with Kixie.Connections
                 (isort Kixie.more_connections stats)
               = length (List.filter
                   (fun r => isin Kixie.connected_outcomes (cell r "outcome")
                             && notna (cell r "agent")) (rows d))).
  { rewrite Hp.
    rewrite (sum_list_with_ext _
               (fun r => length (List.filter
                                   (fun x => isin Kixie.connected_outcomes
                                               (cell x "outcome"))
                                   (agent_rows d (Kixie.Agent r))))).
    2:{ eapply Forall_impl; [exact Hrows|]. by intros r (_ & -> & _). }
    rewrite <- (sum_list_with_fmap
                  (fun k => length (List.filter
                                      (fun x => isin Kixie.connected_outcomes
                                                  (cell x "outcome"))
                                      (agent_rows d k))) Kixie.Agent).
    rewrite Hk. unfold agent_rows. rewrite (groups_partition _ _ _ _ Hn).
    f_equal. apply List.filter_ext_in. intros r Hr.
    by rewrite agent_in_keys by by apply list_elem_of_In. }
  split; [exact H1|]. split; [exact H2|]. split.
  - rewrite H2. unfold count_matching in Hc.
    destruct (col d "outcome") as [s|e] eqn:Hs; cbn [rbind] in Hc; [|done].
    injection Hc as <-.
    assert (Hs' : s = (fun r => cell r "outcome") <$> rows d).
    { unfold col in Hs. destruct (has_column "outcome" d); congruence. }
    subst s. unfold len, select. cbn [rows].
    rewrite <- list_fmap_compose, select_rows_filter.
    clear. induction (rows d) as [|r l IH]; [done|]. cbn [List.filter compose].
    destruct (isin _ _), (notna _); simpl; lia.
  - rewrite H1. unfold len. clear.
    induction (rows d) as [|r l IH]; [done|]. cbn [List.filter].
    destruct (_ && _); simpl; lia.
Qed.

Lemma agent_table_totals_witness :
  exists body,
    Kixie.agent_stats dated_frame = Ok body
    /\ count_matching dated_frame "outcome" Kixie.connected_outcomes = Ok 2%nat
    /\ sum_list_with Kixie.Total_Calls body = 3%nat
    /\ sum_list_with Kixie.Connections body = 2%nat.
Proof.
  destruct (Kixie.agent_stats dated_frame) as [body|e] eqn:H;
    [|exfalso; revert H; vm_compute; discriminate].
  exists body. split; [reflexivity|].
  assert (Hc : count_matching dated_frame "outcome" Kixie.connected_outcomes
               = Ok 2%nat) by (vm_compute; reflexivity).
  split; [exact Hc|].
  destruct (agent_table_totals dated_frame body 2 H Hc) as (H1 & H2 & _).
  split; [rewrite H1|rewrite H2]; vm_compute; reflexivity.
Defined.

(** ** The agent chart and the agent table *)

Lemma occurrences_column (d : DataFrame) (c : string) (k : value) :
  occurrences k ((fun r => cell r c) <$> rows d)
  = length (List.filter (fun r => bool_decide (cell r c = k)) (rows d)).
Proof. unfold occurrences. by rewrite List_filter_fmap, length_fmap. Qed.

Lemma List_filter_length_le {A} (f : A -> bool) (l : list A) :
  (length (List.filter f l) <= length l)%nat.
Proof.
  induction l as [|x l IH]; [done|]. cbn [List.filter].
  destruct (f x); simpl; lia.
Qed.

Lemma List_filter_all {A} (f : A -> bool) (l : list A) :
  Forall (fun x => f x = true) l -> List.filter f l = l.
Proof.
  induction 1 as [|x l Hx Hl IH]; [done|]. cbn [List.filter].
  by rewrite Hx, IH.
Qed.

Lemma agent_rows_ids (d : DataFrame) (k : value) :
  ids_present d ->
  List.filter (fun x => notna (cell x "id")) (agent_rows d k) = agent_rows d k.
Proof.
  intros Hi. apply List_filter_all, Forall_forall. intros r Hr.
  unfold agent_rows in Hr. apply elem_of_List_filter in Hr.
  destruct Hr as [Hr _].
  unfold ids_present in Hi. rewrite Forall_forall in Hi. by apply Hi.
Qed.

Lemma view_outputs (fd : DataFrame) (out : Kixie.outputs) :
  Kixie.view fd = Ok out ->
  Kixie.out_agent_chart out
  = Kixie.Bar (head 10 (value_counts ((fun r => cell r "agent") <$> rows fd)))
  /\ Kixie.out_outcome_chart out
     = Kixie.Pie (value_counts ((fun r => cell r "outcome") <$> rows fd))
  /\ exists stats,
       Kixie.agent_stats fd = Ok stats
       /\ Kixie.out_agent_table out = Kixie.Table stats.
Proof.
  unfold Kixie.view, group_counts, count_matching, col.
  destruct (has_column "outcome" fd); cbn [rbind]; [|done].
  destruct (Kixie.connection_rate _ _); cbn [rbind]; [|done].
  destruct (if has_column "duration" fd then _ else _); cbn [rbind]; [|done].
  destruct (has_column "agent" fd); cbn [rbind]; [|done].
  destruct (Kixie.agent_stats fd) as [stats|e]; cbn [rbind]; [|done].
  intros [= <-].
  cbn [Kixie.out_agent_chart Kixie.out_outcome_chart Kixie.out_agent_table].
  split; [done|]. split; [done|]. by exists stats.
Qed.

(** X13: in every state the program can reach, the agent chart and the
    agent table of one run agree: each bar of the chart carries the Total
    Calls of the table row of that agent.  And no row of the table has
    more Connections than Total Calls. *)
Theorem agent_chart_matches_table (to_datetime : value -> option Z)
    (db : option (result (list (string * gmap string value))))
    (apply_clicks : Z) (start_date end_date : option string)
    (refresh_clicks auto_refresh : Z) (s : store)
    (out : Kixie.outputs) (chart : list (value * nat))
    (body : list Kixie.agent_row) :
  Kixie.reachable to_datetime s ->
  fst (Kixie.update_dashboard to_datetime db apply_clicks start_date end_date
         refresh_clicks auto_refresh s) = Ok out ->
  Kixie.out_agent_chart out = Kixie.Bar chart ->
  Kixie.out_agent_table out = Kixie.Table body ->
  (forall k n, (k, n) ∈ chart ->
     exists r, r ∈ body /\ Kixie.Agent r = k /\ Kixie.Total_Calls r = n)
  /\ Forall (fun r => (Kixie.Connections r <= Kixie.Total_Calls r)%nat) body
  /\ (length chart <= 10)%nat.
Proof.
  intros Hs Hout Hchart Hbody.
  destruct (reachable_run to_datetime db apply_clicks start_date end_date
              refresh_clicks auto_refresh s Hs) as (d & Hids & Hrun).
  rewrite Hrun in Hout. unfold Kixie.recompute in Hout.
  destruct (empty d).
  { injection Hout as <-. discriminate Hbody. }
  destruct (Kixie.filter_by_date to_datetime start_date end_date d)
    as [fd|e] eqn:Hf; cbn [rbind] in Hout; [|done].
  pose proof (filter_by_date_ids to_datetime _ _ _ _ Hf Hids) as Hfd.
  destruct (view_outputs fd out Hout) as (Hc & _ & stats & Hstats & Ht).
  rewrite Ht in Hbody. injection Hbody as <-.
  assert (Hch : chart
                = head 10 (value_counts ((fun r => cell r "agent") <$> rows fd)))
    by congruence.
  clear Hchart Hc. subst chart.
  split; [|split].
  - intros k n Hin. unfold head in Hin. apply elem_of_take in Hin.
    destruct Hin as (i & Hin & _). apply list_elem_of_lookup_2 in Hin.
    apply (proj2 (value_counts_entries_aux _ k n)) in Hin.
    destruct Hin as (Hk & Hin & ->).
    destruct (agent_table_rows_aux fd stats k Hstats) as (_ & Hmem & Hrows & _).
    assert (Hr : k ∈ Kixie.Agent <$> stats) by (by apply Hmem).
    apply list_elem_of_fmap in Hr. destruct Hr as (r & -> & Hr).
    exists r. split; [done|]. split; [done|].
    rewrite Forall_forall in Hrows. destruct (Hrows r Hr) as (-> & _).
    rewrite agent_rows_ids by done. by rewrite occurrences_column.
  - destruct (agent_table_rows_aux fd stats Null Hstats) as (_ & _ & Hrows & _).
    eapply Forall_impl; [exact Hrows|]. intros r (-> & -> & _).
    rewrite agent_rows_ids by done. apply List_filter_length_le.
  - unfold head. rewrite length_take. lia.
Qed.

Lemma agent_chart_matches_table_witness :
  exists out chart body,
    fst (Kixie.update_dashboard simple_to_datetime None 0 None None 0 0
           dated_store) = Ok out
    /\ Kixie.out_agent_chart out = Kixie.Bar chart
    /\ Kixie.out_agent_table out = Kixie.Table body
    /\ chart = [(Str "A", 2%nat); (Str "B", 1%nat)]
    /\ Forall (fun r => (Kixie.Connections r <= Kixie.Total_Calls r)%nat) body.
Proof.
  destruct (fst (Kixie.update_dashboard simple_to_datetime None 0 None None
                   0 0 dated_store)) as [out|e] eqn:H;
    [|exfalso; revert H; vm_compute; discriminate].
  destruct (Kixie.out_agent_chart out) as [|pie|chart] eqn:Hc;
    [exfalso; revert H Hc; vm_compute; intros [= <-]; discriminate..|].
  destruct (Kixie.out_agent_table out) as [|body] eqn:Ht;
    [exfalso; revert H Ht; vm_compute; intros [= <-]; discriminate|].
  exists out, chart, body. split; [reflexivity|]. split; [exact Hc|].
  split; [exact Ht|]. split.
  - revert H Hc. vm_compute. intros [= <-] [= <-]. reflexivity.
  - exact (proj1 (proj2 (agent_chart_matches_table simple_to_datetime None 0
                           None None 0 0 dated_store out chart body
                           (Kixie.reachable_init _ _) H Hc Ht))).
Defined.

(** ** Dates at start-up and after a re-fetch *)

Lemma mask_between_returns (start end_ : Z) (s : list value) :
  Forall (fun v => exists x, v = Date x) s ->
  exists m, mask (Kixie.between start end_) s = Ok m.
Proof.
  induction 1 as [|v s [x ->] Hs [m IH]]; simpl; [by eexists|].
  rewrite IH. simpl. by eexists.
Qed.

(** The date filter returns on a table whose dates are dates or missing,
    when the bounds parse; it then keeps the rows with a date in the
    range. *)
Lemma filter_by_date_returns (to_datetime : value -> option Z)
    (start_date end_date : option string) (start end_ : Z) (d : DataFrame) :
  truthy start_date && truthy end_date = true ->
  has_column "date" d = true ->
  Kixie.parse_day to_datetime (default "" start_date) = Ok start ->
  Kixie.parse_day to_datetime (default "" end_date) = Ok end_ ->
  Forall (fun r => date_or_missing (cell r "date")) (rows d) ->
  Kixie.filter_by_date to_datetime start_date end_date d
  = Ok {| columns := columns d;
          rows := List.filter (fun r => in_range start end_ (cell r "date"))
                    (rows d) |}.
Proof.
  intros Ht Hc Hs He Hd.
  destruct (Kixie.filter_by_date to_datetime start_date end_date d)
    as [d'|e] eqn:Hf.
  - destruct (filter_by_date_rows_aux _ _ _ _ _ _ _ Hf Ht Hc Hs He) as [H1 H2].
    destruct d' as [cols rws]. cbn [columns rows] in H1, H2. by subst.
  - exfalso. revert Hf. unfold Kixie.filter_by_date.
    rewrite Ht, Hs, He, Hc. cbn [rbind].
    rewrite (col_present d "date" Hc). cbn [rbind].
    set (d1 := select d _).
    assert (Hc1 : has_column "date" d1 = true) by exact Hc.
    rewrite (col_present d1 "date" Hc1). cbn [rbind].
    destruct (mask_between_returns start end_
                ((fun r => cell r "date") <$> rows d1)) as [m ->]; [|done].
    apply Forall_fmap. unfold d1. cbn [select rows].
    rewrite <- list_fmap_compose.
    rewrite (select_rows_filter (notna ∘ (fun r => cell r "date"))).
    apply Forall_forall. intros r Hr. apply elem_of_List_filter in Hr.
    destruct Hr as [Hr Hn]. rewrite Forall_forall in Hd.
    destruct (Hd r Hr) as [Hnull|[x Hx]].
    + unfold compose in Hn. by rewrite Hnull in Hn.
    + by exists x.
Qed.

Lemma List_filter_none {A} (f : A -> bool) (l : list A) :
  Forall (fun x => f x = false) l -> List.filter f l = [].
Proof.
  induction 1 as [|x l Hx Hl IH]; [done|]. cbn [List.filter]. by rewrite Hx.
Qed.

Lemma fetch_calls_not_empty (docs : list (string * gmap string value)) :
  docs <> [] -> empty (Kixie.fetch_calls (Some (Ok docs))) = false.
Proof.
  intros Hd. unfold empty, len. cbn [Kixie.fetch_calls DataFrame_of rows].
  rewrite length_fmap.
  destruct docs as [|[k data] docs]; [done|]. cbn [length Nat.eqb orb].
  assert (H : has_column "id"
                (DataFrame_of ((fun d => <["id" := Str d.1]> d.2)
                                 <$> (k, data) :: docs)) = true).
  { apply DataFrame_of_columns. eexists. split; [by left|].
    simpl. by rewrite lookup_insert_eq. }
  unfold has_column in H. apply bool_decide_eq_true in H.
  destruct (columns _); [by apply elem_of_nil in H|done].
Qed.

Lemma fetch_calls_lacks (docs : list (string * gmap string value)) (c : string) :
  c <> "id" ->
  (forall doc, doc ∈ docs -> snd doc !! c = None) ->
  has_column c (Kixie.fetch_calls (Some (Ok docs))) = false.
Proof.
  intros Hc Hd. apply not_true_is_false. intros H.
  apply DataFrame_of_columns in H. destruct H as (r & Hr & [v Hv]).
  apply list_elem_of_fmap in Hr. destruct Hr as (doc & -> & Hdoc).
  rewrite lookup_insert_ne in Hv by done. by rewrite (Hd doc Hdoc) in Hv.
Qed.

Lemma set_column_has (c : string) (f : gmap string value -> value) (d : DataFrame) :
  has_column c (set_column c f d) = true.
Proof.
  unfold set_column. destruct (has_column c d) eqn:H.
  - exact H.
  - unfold has_column. cbn [columns]. apply bool_decide_eq_true_2.
    apply elem_of_app. right. by left.
Qed.

Lemma set_column_cell (c : string) (f : gmap string value -> value) (d : DataFrame) :
  (fun r => cell r c) <$> rows (set_column c f d) = f <$> rows d.
Proof.
  unfold set_column. cbn [rows]. rewrite <- list_fmap_compose.
  apply list_fmap_ext. intros i r _. simpl. unfold cell.
  by rewrite lookup_insert_eq.
Qed.

(** X14: the same documents are filtered differently at start-up and
    after a re-fetch when no record has a [callDate].  At start-up the
    module adds a [date] column of missing values, so a date range leaves
    no row; the re-fetch adds no [date] column, so (when the records have
    no [date] field of their own) a date range is not applied and every
    row is kept. *)
Theorem undated_calls_at_start_and_after_refresh
    (to_datetime : value -> option Z)
    (docs : list (string * gmap string value))
    (start_date end_date : option string) (start end_ : Z) :
  docs <> [] ->
  (forall doc, doc ∈ docs ->
     snd doc !! "callDate" = None /\ snd doc !! "date" = None) ->
  truthy start_date && truthy end_date = true ->
  Kixie.parse_day to_datetime (default "" start_date) = Ok start ->
  Kixie.parse_day to_datetime (default "" end_date) = Ok end_ ->
  (exists shown,
     Kixie.filter_by_date to_datetime start_date end_date
       (Kixie.module_init to_datetime (Some (Ok docs))) = Ok shown
     /\ rows shown = [])
  /\ Kixie.filter_by_date to_datetime start_date end_date
       (Kixie.refreshed to_datetime (Some (Ok docs)))
     = Ok (Kixie.refreshed to_datetime (Some (Ok docs)))
  /\ len (Kixie.refreshed to_datetime (Some (Ok docs))) = length docs
  /\ len (Kixie.module_init to_datetime (Some (Ok docs))) = length docs.
Proof.
  intros Hne Hdocs Ht Hs He.
  pose proof (fetch_calls_not_empty docs Hne) as Hemp.
  assert (Hcd : has_column "callDate" (Kixie.fetch_calls (Some (Ok docs))) = false).
  { apply fetch_calls_lacks; [done|]. intros doc Hd. by apply Hdocs. }
  assert (Hdt : has_column "date" (Kixie.fetch_calls (Some (Ok docs))) = false).
  { apply fetch_calls_lacks; [done|]. intros doc Hd. by apply Hdocs. }
  assert (Hinit : Kixie.module_init to_datetime (Some (Ok docs))
                  = set_column "date" (fun _ => Null)
                      (Kixie.fetch_calls (Some (Ok docs)))).
  { unfold Kixie.module_init. rewrite Hemp, Hcd, Hemp. done. }
  assert (Href : Kixie.refreshed to_datetime (Some (Ok docs))
                 = Kixie.fetch_calls (Some (Ok docs))).
  { unfold Kixie.refreshed. by rewrite Hcd. }
  split; [|split; [|split]].
  - rewrite Hinit. eexists. split.
    + apply (filter_by_date_returns to_datetime _ _ start end_ _ Ht
               (set_column_has _ _ _) Hs He).
      apply Forall_forall. intros r Hr. left.
      assert (H : cell r "date"
                  ∈ (fun r => cell r "date")
                      <$> rows (set_column "date" (fun _ => Null)
                                  (Kixie.fetch_calls (Some (Ok docs)))))
        by (apply list_elem_of_fmap; by exists r).
      rewrite set_column_cell in H. apply list_elem_of_fmap in H.
      by destruct H as (? & -> & _).
    + cbn [rows]. apply List_filter_none, Forall_forall. intros r Hr.
      assert (H : cell r "date"
                  ∈ (fun r => cell r "date")
                      <$> rows (set_column "date" (fun _ => Null)
                                  (Kixie.fetch_calls (Some (Ok docs)))))
        by (apply list_elem_of_fmap; by exists r).
      rewrite set_column_cell in H. apply list_elem_of_fmap in H.
      destruct H as (? & -> & _). done.
  - rewrite Href. unfold Kixie.filter_by_date. rewrite Ht, Hs, He, Hdt. done.
  - rewrite Href. unfold len. cbn [Kixie.fetch_calls DataFrame_of rows].
    by rewrite length_fmap.
  - rewrite Hinit. unfold len, set_column.
    cbn [Kixie.fetch_calls DataFrame_of rows]. by rewrite !length_fmap.
Qed.

Lemma undated_calls_at_start_and_after_refresh_witness :
  (exists shown,
     Kixie.filter_by_date simple_to_datetime (Some "0") (Some "864000")
       (Kixie.module_init simple_to_datetime (Some (Ok undated_docs))) = Ok shown
     /\ rows shown = [])
  /\ Kixie.filter_by_date simple_to_datetime (Some "0") (Some "864000")
       (Kixie.refreshed simple_to_datetime (Some (Ok undated_docs)))
     = Ok (Kixie.refreshed simple_to_datetime (Some (Ok undated_docs)))
  /\ len (Kixie.refreshed simple_to_datetime (Some (Ok undated_docs))) = 3%nat.
Proof.
  destruct (undated_calls_at_start_and_after_refresh simple_to_datetime
              undated_docs (Some "0") (Some "864000") 0 10)
    as (H1 & H2 & H3 & _); try (vm_compute; reflexivity).
  - discriminate.
  - intros doc Hd. unfold undated_docs, scenario_docs in Hd.
    repeat (apply elem_of_cons in Hd; destruct Hd as [->|Hd];
            [split; vm_compute; reflexivity|]).
    by apply elem_of_nil in Hd.
  - split; [exact H1|]. split; [exact H2|exact H3].
Defined.

(** ** The range the date picker starts with *)


Section Module_init_facts.
Variable to_datetime : value -> option Z.



End Module_init_facts.





(** ** sales_dashboard.py *)

Lemma fetch_contacts_nothing
    (db : option (result (list (string * gmap string value
                                * option (list string))))) :
  SalesDashboard.crows (SalesDashboard.fetch_contacts db) = [] ->
  SalesDashboard.fetch_contacts db = SalesDashboard.contacts_of [].
Proof.
  destruct db as [[docs|e]|]; try done. cbn.
  intros H. apply fmap_nil_inv in H. by subst.
Qed.

(** X16: the Sales callback has no guard for an empty table.  A refresh
    that brings nothing (no client, a failed request, an empty
    collection) leaves a table without columns behind [df], and the
    callback raises [KeyError] for [setter]; at start-up the same answer
    of the client is replaced by an empty table with the default columns,
    on which the callback returns empty charts and an empty table. *)
Theorem sales_refresh_without_data
    (db : option (result (list (string * gmap string value
                                * option (list string)))))
    (n_clicks : Z) (df : SalesDashboard.contacts) :
  SalesDashboard.crows (SalesDashboard.fetch_contacts db) = [] ->
  0 < n_clicks ->
  SalesDashboard.update_dashboard db n_clicks df
  = (Raise (KeyError "setter"), SalesDashboard.mkContacts [] [])
  /\ SalesDashboard.update_dashboard db 0 (SalesDashboard.module_init db)
     = (Ok empty_charts,
        SalesDashboard.mkContacts SalesDashboard.default_columns []).
Proof.
  intros H Hn. unfold SalesDashboard.update_dashboard, SalesDashboard.module_init.
  rewrite (fetch_contacts_nothing db H).
  destruct (Z.gtb_spec n_clicks 0); [|lia]. split; vm_compute; reflexivity.
Qed.

Lemma sales_refresh_without_data_witness :
  fst (SalesDashboard.update_dashboard None 1 tagged_contacts)
  = Raise (KeyError "setter")
  /\ fst (SalesDashboard.update_dashboard None 0 (SalesDashboard.module_init None))
     = Ok empty_charts.
Proof.
  destruct (sales_refresh_without_data None 1 tagged_contacts)
    as [H1 H2]; [reflexivity|lia|].
  by rewrite H1, H2.
Defined.

Lemma distinct_length_le (s : list value) : (length (distinct s) <= length s)%nat.
Proof.
  destruct (distinct_spec s) as [Hn Hin].
  apply submseteq_length, NoDup_submseteq; [done|]. intros x. by apply Hin.
Qed.

Lemma value_counts_length (s : list value) :
  length (value_counts s) = SalesDashboard.nunique s.
Proof.
  unfold SalesDashboard.nunique.
  rewrite <- (length_fmap fst (value_counts s)).
  apply Permutation_length, NoDup_Permutation.
  - apply (value_counts_entries_aux s Null 0).
  - apply distinct_spec.
  - intros v.
    destruct (distinct_spec (List.filter notna s)) as [_ Hd].
    rewrite Hd, elem_of_List_filter, list_elem_of_fmap. split.
    + intros ([k n] & -> & Hin).
      apply (proj2 (value_counts_entries_aux s k n)) in Hin.
      destruct Hin as (Hk & Hin & _). split; [done|]. by destruct k.
    + intros [Hin Hv]. exists (v, occurrences v s). split; [done|].
      apply (proj2 (value_counts_entries_aux s v (occurrences v s))).
      split; [|done]. intros ->. done.
Qed.

(** X17: the numbers of the KPI cards are consistent with each other and
    with the setter chart: the contacts with a setter are at most the
    contacts, the unique setters are at most the contacts with a setter,
    and the setter chart has one bar per unique setter, 15 at most, whose
    heights add up to the contacts with a setter when no bar is cut. *)
Theorem sales_kpis_consistent (c : SalesDashboard.contacts)
    (total with_setter unique_setters unique_teams : nat)
    (bars : list (value * nat)) :
  SalesDashboard.kpis c = Ok (total, with_setter, unique_setters, unique_teams) ->
  Sales.setter_counts (SalesDashboard.scalars c) = Ok bars ->
  total = length (SalesDashboard.crows c)
  /\ (with_setter <= total)%nat
  /\ (unique_setters <= with_setter)%nat
  /\ (unique_teams <= total)%nat
  /\ length bars = Nat.min 15 unique_setters
  /\ ((unique_setters <= 15)%nat -> sum_list_with snd bars = with_setter).
Proof.
  unfold SalesDashboard.kpis, Sales.setter_counts, group_counts.
  destruct (col (SalesDashboard.scalars c) "setter") as [s|e] eqn:Hs;
    cbn [rbind]; [|done].
  destruct (col (SalesDashboard.scalars c) "team") as [t|e] eqn:Ht;
    cbn [rbind]; [|done].
  intros [= <- <- <- <-] Hb.
  assert (Hbars : bars = head 15 (value_counts s)) by congruence.
  clear Hb. subst bars.
  assert (Hls : length s = length (SalesDashboard.crows c)).
  { unfold col in Hs. destruct (has_column _ _); [|done]. injection Hs as <-.
    unfold SalesDashboard.scalars. cbn [rows]. by rewrite !length_fmap. }
  assert (Hlt : length t = length (SalesDashboard.crows c)).
  { unfold col in Ht. destruct (has_column _ _); [|done]. injection Ht as <-.
    unfold SalesDashboard.scalars. cbn [rows]. by rewrite !length_fmap. }
  split.
  { unfold len, SalesDashboard.scalars. cbn [rows]. by rewrite length_fmap. }
  unfold len, SalesDashboard.scalars. cbn [rows]. rewrite length_fmap.
  split; [rewrite <- Hls; apply List_filter_length_le|].
  split; [apply distinct_length_le|].
  split.
  { unfold SalesDashboard.nunique. etransitivity; [apply distinct_length_le|].
    rewrite <- Hlt. apply List_filter_length_le. }
  unfold head. rewrite length_take, value_counts_length. split; [done|].
  intros Hu. rewrite take_ge by (rewrite value_counts_length; lia).
  apply value_counts_sum.
Qed.

Lemma sales_kpis_consistent_witness :
  SalesDashboard.kpis tagged_contacts = Ok (3%nat, 2%nat, 1%nat, 2%nat)
  /\ Sales.setter_counts (SalesDashboard.scalars tagged_contacts)
     = Ok [(Str "sam", 2%nat)]
  /\ length [(Str "sam", 2%nat)] = Nat.min 15 1.
Proof.
  assert (H1 : SalesDashboard.kpis tagged_contacts
               = Ok (3%nat, 2%nat, 1%nat, 2%nat)) by (vm_compute; reflexivity).
  assert (H2 : Sales.setter_counts (SalesDashboard.scalars tagged_contacts)
               = Ok [(Str "sam", 2%nat)]) by (vm_compute; reflexivity).
  split; [exact H1|]. split; [exact H2|].
  exact (proj1 (proj2 (proj2 (proj2 (proj2
           (sales_kpis_consistent tagged_contacts 3 2 1 2 _ H1 H2)))))).
Defined.

Lemma all_tags_elem (tags : list (option (list string))) (t : string) :
  t ∈ SalesDashboard.all_tags tags <-> exists ts, Some ts ∈ tags /\ t ∈ ts.
Proof.
  induction tags as [|[ts|] tags IH]; cbn [SalesDashboard.all_tags].
  - split; [intros H; by apply elem_of_nil in H|].
    intros (ts & H & _). by apply elem_of_nil in H.
  - rewrite elem_of_app, IH. split.
    + intros [H|(ts' & H1 & H2)].
      * exists ts. split; [by left|done].
      * exists ts'. split; [by right|done].
    + intros (ts' & H1 & H2). apply elem_of_cons in H1.
      destruct H1 as [[= ->]|H1]; [by left|]. right. by exists ts'.
  - rewrite IH. split.
    + intros (ts' & H1 & H2). exists ts'. split; [by right|done].
    + intros (ts' & H1 & H2). apply elem_of_cons in H1.
      destruct H1 as [?|H1]; [done|]. by exists ts'.
Qed.

Lemma filter_notna_Str (l : list string) :
  List.filter notna (Str <$> l) = Str <$> l.
Proof. induction l as [|t l IH]; [done|]. rewrite fmap_cons. simpl. by rewrite IH. Qed.

(** X18: the pipeline funnel counts tags, not contacts: it has one entry
    per tag seen on some contact, with the number of times the tag
    occurs, the 12 most frequent first; before the cut the counts add up
    to the number of tags of all contacts together.  Contacts without
    tags contribute nothing. *)
Theorem tag_counts_entries (c : SalesDashboard.contacts)
    (tags : list (option (list string))) (top : list (value * nat)) :
  SalesDashboard.tags_column c = Ok tags ->
  SalesDashboard.tag_counts c = Ok top ->
  top = take 12 (value_counts (Str <$> SalesDashboard.all_tags tags))
  /\ (length top <= 12)%nat
  /\ StronglySorted by_count_desc top
  /\ sum_list_with snd (value_counts (Str <$> SalesDashboard.all_tags tags))
     = length (SalesDashboard.all_tags tags)
  /\ (forall v n, (v, n) ∈ top ->
        exists t ts, v = Str t /\ Some ts ∈ tags /\ t ∈ ts
                     /\ n = occurrences (Str t)
                              (Str <$> SalesDashboard.all_tags tags)).
Proof.
  unfold SalesDashboard.tag_counts. intros -> Ht. cbn [rbind] in Ht.
  assert (Htop : top = head 12 (value_counts
                                  (Str <$> SalesDashboard.all_tags tags)))
    by congruence.
  clear Ht. subst top. unfold head. split; [done|].
  split; [rewrite length_take; lia|].
  split; [apply StronglySorted_take, value_counts_sorted|].
  split.
  { rewrite value_counts_sum, filter_notna_Str. apply length_fmap. }
  intros v n Hin. apply elem_of_take in Hin. destruct Hin as (i & Hin & _).
  apply list_elem_of_lookup_2 in Hin.
  apply (proj2 (value_counts_entries_aux _ v n)) in Hin.
  destruct Hin as (_ & Hin & ->).
  apply list_elem_of_fmap in Hin. destruct Hin as (t & -> & Hin).
  apply all_tags_elem in Hin. destruct Hin as (ts & H1 & H2).
  by exists t, ts.
Qed.

Lemma tag_counts_entries_witness :
  exists tags top,
    SalesDashboard.tags_column tagged_contacts = Ok tags
    /\ SalesDashboard.tag_counts tagged_contacts = Ok top
    /\ tags = [Some ["new"]; Some ["new"; "hot"]; Some ["hot"]]
    /\ top = [(Str "new", 2%nat); (Str "hot", 2%nat)]
    /\ sum_list_with snd (value_counts (Str <$> SalesDashboard.all_tags tags))
       = 4%nat.
Proof.
  exists [Some ["new"]; Some ["new"; "hot"]; Some ["hot"]],
         [(Str "new", 2%nat); (Str "hot", 2%nat)].
  assert (H1 : SalesDashboard.tags_column tagged_contacts
               = Ok [Some ["new"]; Some ["new"; "hot"]; Some ["hot"]])
    by (vm_compute; reflexivity).
  assert (H2 : SalesDashboard.tag_counts tagged_contacts
               = Ok [(Str "new", 2%nat); (Str "hot", 2%nat)])
    by (vm_compute; reflexivity).
  split; [exact H1|]. split; [exact H2|]. split; [reflexivity|].
  split; [reflexivity|].
  destruct (tag_counts_entries tagged_contacts _ _ H1 H2) as (_ & _ & _ & H & _).
  rewrite H. reflexivity.
Defined.

Lemma omap_filter_length {A B} `{EqDecision B} (f : A -> option B)
    (l : list A) (p : B) :
  length (List.filter (fun q => bool_decide (q = p)) (omap f l))
  = length (List.filter (fun r => bool_decide (f r = Some p)) l).
Proof.
  induction l as [|r l IH]; [done|]. cbn [omap list_omap List.filter].
  destruct (f r) as [q|] eqn:Hf; cbn [List.filter].
  - destruct (decide (q = p)) as [->|Hq].
    + rewrite !bool_decide_eq_true_2 by done. simpl. by rewrite IH.
    + rewrite !bool_decide_eq_false_2 by congruence. done.
  - rewrite bool_decide_eq_false_2 by done. done.
Qed.

Lemma omap_key_pair_length (a b : string) (l : list (gmap string value)) :
  length (omap (SalesDashboard.key_pair a b) l)
  = length (List.filter (fun r => notna (cell r a) && notna (cell r b)) l).
Proof.
  induction l as [|r l IH]; [done|]. cbn [omap list_omap List.filter].
  unfold SalesDashboard.key_pair at 1.
  destruct (notna (cell r a) && notna (cell r b)); simpl; by rewrite IH.
Qed.

(** X19: the sources-by-team chart has one bar per pair of lead source
    and team seen on some contact, with the number of contacts of that
    pair; the bars add up to the number of contacts that have both a lead
    source and a team, so a contact that lacks one of them is in no
    bar. *)
Theorem group_sizes_entries (d : DataFrame) (a b : string)
    (sizes : list (value * value * nat)) :
  SalesDashboard.group_sizes d a b = Ok sizes ->
  NoDup (fst <$> sizes)
  /\ sum_list_with snd sizes
     = length (List.filter (fun r => notna (cell r a) && notna (cell r b))
                 (rows d))
  /\ Forall (fun e =>
               (1 <= snd e)%nat
               /\ snd e
                  = length (List.filter
                              (fun r => bool_decide
                                          (SalesDashboard.key_pair a b r
                                           = Some (fst e))) (rows d)))
       sizes.
Proof.
  unfold SalesDashboard.group_sizes.
  destruct (col d a); cbn [rbind]; [|done].
  destruct (col d b); cbn [rbind]; [|done].
  intros [= <-].
  set (pairs := omap (SalesDashboard.key_pair a b) (rows d)).
  pose proof (isort_Permutation SalesDashboard.pair_leb (remove_dups pairs)) as Hp.
  assert (Hn : NoDup (isort SalesDashboard.pair_leb (remove_dups pairs))).
  { rewrite Hp. apply NoDup_remove_dups. }
  split; [|split].
  - rewrite <- list_fmap_compose.
    replace (fst ∘ _ <$> isort SalesDashboard.pair_leb (remove_dups pairs))
      with (isort SalesDashboard.pair_leb (remove_dups pairs)); [done|].
    symmetry. etransitivity; [|apply list_fmap_id]. by apply list_fmap_ext.
  - rewrite sum_list_with_fmap. cbn [snd].
    rewrite (sum_list_with_ext _
               (fun k => length (List.filter (fun _ => true)
                                   (List.filter (fun q => bool_decide (q = k))
                                      pairs)))).
    2:{ apply Forall_forall. intros k _.
        by rewrite (List_filter_all (fun _ => true)) by by apply Forall_forall. }
    rewrite (groups_partition (fun q => q) (fun _ => true) _ pairs Hn).
    rewrite List_filter_all.
    + apply omap_key_pair_length.
    + apply Forall_forall. intros q Hq. cbn [andb].
      apply bool_decide_eq_true_2. rewrite Hp. by apply elem_of_remove_dups.
  - apply Forall_fmap, Forall_forall. intros p Hin. cbn [fst snd compose].
    rewrite Hp, elem_of_remove_dups in Hin.
    unfold pairs. rewrite omap_filter_length. split; [|done].
    rewrite <- omap_filter_length.
    assert (Hin' : In p (List.filter (fun q => bool_decide (q = p))
                           (omap (SalesDashboard.key_pair a b) (rows d)))).
    { apply filter_In. split; [apply list_elem_of_In; exact Hin|].
      by apply bool_decide_eq_true_2. }
    destruct (List.filter _ _); [destruct Hin'|simpl; lia].
Qed.

Lemma group_sizes_entries_witness :
  exists sizes,
    SalesDashboard.group_sizes (SalesDashboard.scalars tagged_contacts)
      "leadSource" "team" = Ok sizes
    /\ sizes = [(Str "door", Str "south", 1%nat); (Str "web", Str "north", 2%nat)]
    /\ sum_list_with snd sizes = 3%nat.
Proof.
  exists [(Str "door", Str "south", 1%nat); (Str "web", Str "north", 2%nat)].
  assert (H : SalesDashboard.group_sizes (SalesDashboard.scalars tagged_contacts)
                "leadSource" "team"
              = Ok [(Str "door", Str "south", 1%nat);
                    (Str "web", Str "north", 2%nat)])
    by (vm_compute; reflexivity).
  split; [exact H|]. split; [reflexivity|].
  destruct (group_sizes_entries _ _ _ _ H) as (_ & Hs & _).
  rewrite Hs. vm_compute. reflexivity.
Defined.

Lemma check_columns_returns (d : DataFrame) (cols : list string) :
  SalesDashboard.check_columns d cols = Ok tt
  <-> Forall (fun c => has_column c d = true) cols.
Proof.
  induction cols as [|c cols IH]; cbn [SalesDashboard.check_columns].
  - split; [constructor|done].
  - rewrite Forall_cons, <- IH. destruct (has_column c d).
    + split; [by split|by intros [_ ?]].
    + split; [done|by intros [? _]].
Qed.

(** X20: the table below the charts shows contacts that have a setter
    and no others, in the order of the table of contacts, 25 at most: it
    has as many rows as there are contacts with a setter, or 25; a row
    has the six cells first name, last name, phone, team, setter and lead
    source of its contact, and its setter is not missing. *)
Theorem sample_rows (c : SalesDashboard.contacts) (setters : list value)
    (tbl : list (list value)) :
  col (SalesDashboard.scalars c) "setter" = Ok setters ->
  SalesDashboard.sample c = Ok tbl ->
  tbl = take 25
          ((fun r => (fun col => cell r col) <$> SalesDashboard.sample_columns)
             <$> List.filter (fun r => notna (cell r "setter"))
                   (fst <$> SalesDashboard.crows c))
  /\ length tbl = Nat.min 25 (length (List.filter notna setters))
  /\ Forall (fun row => length row = 6%nat
                        /\ exists v, row !! 4%nat = Some v /\ v <> Null) tbl.
Proof.
  unfold SalesDashboard.sample. intros Hs. rewrite Hs. cbn [rbind].
  assert (Hs' : setters = (fun r => cell r "setter")
                            <$> rows (SalesDashboard.scalars c)).
  { unfold col in Hs. destruct (has_column _ _); congruence. }
  destruct (SalesDashboard.check_columns _ _); cbn [rbind]; [|done].
  intros Ht.
  assert (Htbl : tbl = head 25
            ((fun r => (fun col => cell r col) <$> SalesDashboard.sample_columns)
               <$> rows (select (SalesDashboard.scalars c) (notna <$> setters))))
    by congruence.
  clear Ht. subst tbl setters. unfold head, select. cbn [rows].
  rewrite <- list_fmap_compose.
  rewrite (select_rows_filter (notna ∘ (fun r => cell r "setter"))).
  unfold SalesDashboard.scalars. cbn [rows]. unfold compose.
  split; [done|]. split.
  - rewrite length_take, length_fmap.
    by rewrite (List_filter_fmap (fun r => cell r "setter")), length_fmap.
  - apply Forall_take, Forall_fmap, Forall_forall. intros r Hr.
    apply elem_of_List_filter in Hr. destruct Hr as [_ Hr]. split; [done|].
    exists (cell r "setter"). split; [done|]. intros H. by rewrite H in Hr.
Qed.

Lemma sample_rows_witness :
  exists setters tbl,
    col (SalesDashboard.scalars tagged_contacts) "setter" = Ok setters
    /\ SalesDashboard.sample tagged_contacts = Ok tbl
    /\ setters = [Str "sam"; Null; Str "sam"]
    /\ length tbl = 2%nat.
Proof.
  exists [Str "sam"; Null; Str "sam"],
         [[Str "Ann"; Str "Lee"; Str "1"; Str "north"; Str "sam"; Str "web"];
          [Str "Cy"; Str "Orr"; Str "3"; Str "south"; Str "sam"; Str "door"]].
  assert (H1 : col (SalesDashboard.scalars tagged_contacts) "setter"
               = Ok [Str "sam"; Null; Str "sam"]) by (vm_compute; reflexivity).
  assert (H2 : SalesDashboard.sample tagged_contacts
               = Ok [[Str "Ann"; Str "Lee"; Str "1"; Str "north"; Str "sam";
                      Str "web"];
                     [Str "Cy"; Str "Orr"; Str "3"; Str "south"; Str "sam";
                      Str "door"]]) by (vm_compute; reflexivity).
  split; [exact H1|]. split; [exact H2|]. split; [reflexivity|].
  destruct (sample_rows tagged_contacts _ _ H1 H2) as (_ & H & _).
  rewrite H. reflexivity.
Defined.

(** X21: the Sales callback returns its charts exactly when the table of
    contacts has the columns [setter], [team], [leadSource], [tags],
    [rep], [firstName], [lastName] and [phone]; the cells in them do not
    matter (the tags of a contact being a list of strings or missing),
    and a table without rows is fine.  Without one of the columns it
    raises. *)
Theorem charts_returns_iff (c : SalesDashboard.contacts) :
  (exists out, SalesDashboard.charts c = Ok out)
  <-> Forall (fun col => col ∈ SalesDashboard.ccolumns c) chart_columns.
Proof.
  unfold chart_columns. rewrite !Forall_cons, Forall_nil.
  unfold SalesDashboard.charts, Sales.setter_counts, Sales.team_counts,
    Sales.source_counts, Sales.rep_counts, group_counts,
    SalesDashboard.tag_counts, SalesDashboard.tags_column,
    SalesDashboard.source_team, SalesDashboard.group_sizes,
    SalesDashboard.sample, SalesDashboard.sample_columns,
    SalesDashboard.check_columns, col, select, has_column.
  cbn [columns SalesDashboard.scalars].
  split.
  - intros [out H]. revert H.
    repeat match goal with
    | |- context [bool_decide (?x ∈ SalesDashboard.ccolumns c)] =>
        let H := fresh "H" in
        destruct (bool_decide (x ∈ SalesDashboard.ccolumns c)) eqn:H;
        cbn [rbind]; [apply bool_decide_eq_true in H|done]
    end.
    destruct (negb _); [destruct (negb _)|]; cbn [rbind];
      repeat match goal with
      | |- context [bool_decide (?x ∈ SalesDashboard.ccolumns c)] =>
          let H := fresh "H" in
          destruct (bool_decide (x ∈ SalesDashboard.ccolumns c)) eqn:H;
          cbn [rbind]; [apply bool_decide_eq_true in H|done]
      end;
      intros _; repeat split; assumption.
  - intros (H1 & H2 & H3 & H4 & H5 & H6 & H7 & H8 & _).
    rewrite !bool_decide_eq_true_2 by assumption. cbn [rbind].
    destruct (negb _); cbn [rbind]; [|by eexists].
    destruct (negb _); cbn [rbind]; by eexists.
Qed.

Lemma charts_returns_iff_witness :
  (exists out, SalesDashboard.charts tagged_contacts = Ok out)
  /\ ~ (exists out, SalesDashboard.charts (SalesDashboard.contacts_of []) = Ok out).
Proof.
  split.
  - apply (proj2 (charts_returns_iff tagged_contacts)).
    unfold chart_columns. rewrite !Forall_cons, Forall_nil.
    repeat split; apply list_elem_of_In; vm_compute; tauto.
  - intros H. apply (proj1 (charts_returns_iff _)) in H.
    apply Forall_cons in H. destruct H as [H _]. vm_compute in H.
    by apply elem_of_nil in H.
Defined.


(** ** The status page and the status API *)


(** X22: with a client, [GET /api/stats] answers with exactly the four
    counts whatever the fetches do, and the status page always has its
    five entries, the last one the time of the request, with or without
    a client. *)
Theorem api_routes_keys (db : option (string -> result Z))
    (count : string -> result Z) (now : string) :
  dom (Api.api_stats (Some count))
    = ({["contacts"; "opportunities"; "pipelines"; "users"]} : gset string)
  /\ dom (Api.index db now)
    = ({["contacts"; "opportunities"; "pipelines"; "users"; "last_update"]}
         : gset string)
  /\ Api.index db now !! "last_update" = Some (Api.Text now).
Proof.
  unfold Api.api_stats, Api.index. split; [|split].
  - rewrite !dom_insert_L, dom_empty_L. set_solver.
  - destruct db; rewrite ?dom_insert_L, ?dom_alter_L, ?dom_insert_L,
      ?dom_empty_L; set_solver.
  - by simplify_map_eq.
Qed.


